(** * Machine-LLM: the view-state plumbing of [src/App.tsx]

    A shallow embedding of the [App] component of the tutoring front end:
    the data model of [src/types.ts], the component state kept by the three
    [useState] hooks, and the handlers that update it around the three calls
    to the remote text-generation service.

    Modelling choices.
    - A JavaScript string is the list of its UTF-16 code units ([list N]);
      template literals become concatenations of such lists.
    - A [number] used as an array index is a [Z]; reading an array outside
      its bounds gives [undefined], here [None].
    - A handler is the list of the actions it performs, in program order.
      What the outside world decides (the values of [crypto.randomUUID()],
      whether a service call resolves or rejects, the chunks a stream
      delivers) is an argument of the handler.
    - Every [setState] of the source passes an updater [prev => ...]; an
      action [SetState f] carries that updater and executing it applies [f]
      to the current state.  Values captured by a closure ([activeCourse],
      [topicInput], [state.chatHistory]) are read from the render snapshot
      the handler was created in. *)

From Stdlib Require Import ZArith NArith List String Ascii Bool Lia.
From stdpp Require Import base decidable option numbers list relations.

Local Open Scope Z_scope.

(** ** JavaScript values *)

Abbreviation jsstring := (list N).

Module Js.

(** An ASCII literal of the source as code units. *)
Definition lit (s : string) : jsstring :=
  List.map N_of_ascii (list_ascii_of_string s).

(** The line feed written [\n] in the templates, and the double quote. *)
Definition nl : jsstring := [10%N].
Definition dquote : jsstring := [34%N].

(** ECMAScript [WhiteSpace] and [LineTerminator] code units, the ones
    [String.prototype.trim] removes. *)
Definition isWhiteSpace (c : N) : bool :=
  ((9 <=? c) && (c <=? 13) || (c =? 32) || (c =? 160) || (c =? 5760)
   || (8192 <=? c) && (c <=? 8202) || (c =? 8232) || (c =? 8233)
   || (c =? 8239) || (c =? 8287) || (c =? 12288) || (c =? 65279))%N.

Fixpoint trimStart (s : jsstring) : jsstring :=
  match s with
  | [] => []
  | c :: r => if isWhiteSpace c then trimStart r else s
  end.

Definition trimEnd (s : jsstring) : jsstring := rev (trimStart (rev s)).

Definition trim (s : jsstring) : jsstring := trimEnd (trimStart s).

(** Truthiness of a string: every string but the empty one. *)
Definition truthy (s : jsstring) : bool :=
  match s with [] => false | _ :: _ => true end.

(** [arr[i]]: [None] stands for [undefined]. *)
Definition index {A} (arr : list A) (i : Z) : option A :=
  if decide (0 <= i) then arr !! Z.to_nat i else None.

End Js.

(** ** The data model of [src/types.ts] *)

Module Lesson.
Record t := mk { title : jsstring; description : jsstring }.
End Lesson.

Module Mod.
(** [interface Module] *)
Record t := mk { title : jsstring; lessons : list Lesson.t }.
End Mod.

Module Course.
Record t := mk {
  id : jsstring;
  topic : jsstring;
  title : jsstring;
  description : jsstring;
  modules : list Mod.t
}.
End Course.

Module Role.
Inductive t := user | model.
End Role.

Module Message.
(** [isStreaming?: boolean]: [None] when the property is absent. *)
Record t := mk {
  id : jsstring;
  role : Role.t;
  content : jsstring;
  isStreaming : option bool
}.

(** [{ ...msg, content: c }] *)
Definition withContent (msg : t) (c : jsstring) : t :=
  mk (id msg) (role msg) c (isStreaming msg).

(** [{ ...msg, isStreaming: b }] *)
Definition withIsStreaming (msg : t) (b : bool) : t :=
  mk (id msg) (role msg) (content msg) (Some b).
End Message.

Module QuizQuestion.
Record t := mk {
  question : jsstring;
  options : list jsstring;
  correctAnswerIndex : Z;
  explanation : jsstring
}.
End QuizQuestion.

Module Quiz.
Record t := mk { title : jsstring; questions : list QuizQuestion.t }.
End Quiz.

Module ViewState.
Inductive t := landing | course | quiz.
End ViewState.

Record AppState := mkAppState {
  currentView : ViewState.t;
  courses : list Course.t;
  activeCourseId : option jsstring;
  activeModuleIndex : option Z;
  activeLessonIndex : option Z;
  chatHistory : list Message.t;
  activeQuiz : option Quiz.t;
  isLoading : bool
}.

(** The spreads [{ ...prev, field: v }] used by the handlers. *)
Definition set_currentView (v : ViewState.t) (prev : AppState) : AppState :=
  mkAppState v (courses prev) (activeCourseId prev) (activeModuleIndex prev)
    (activeLessonIndex prev) (chatHistory prev) (activeQuiz prev) (isLoading prev).

Definition set_chatHistory (h : list Message.t) (prev : AppState) : AppState :=
  mkAppState (currentView prev) (courses prev) (activeCourseId prev)
    (activeModuleIndex prev) (activeLessonIndex prev) h (activeQuiz prev)
    (isLoading prev).

Definition set_activeQuiz (q : option Quiz.t) (prev : AppState) : AppState :=
  mkAppState (currentView prev) (courses prev) (activeCourseId prev)
    (activeModuleIndex prev) (activeLessonIndex prev) (chatHistory prev) q
    (isLoading prev).

Definition set_isLoading (b : bool) (prev : AppState) : AppState :=
  mkAppState (currentView prev) (courses prev) (activeCourseId prev)
    (activeModuleIndex prev) (activeLessonIndex prev) (chatHistory prev)
    (activeQuiz prev) b.

Definition set_activeIndices (m l : Z) (prev : AppState) : AppState :=
  mkAppState (currentView prev) (courses prev) (activeCourseId prev)
    (Some m) (Some l) (chatHistory prev) (activeQuiz prev) (isLoading prev).

(** ** The component: three [useState] cells (App.tsx, lines 11-23) *)

Record Component := mkComponent {
  state : AppState;
  topicInput : jsstring;
  isStreaming : bool
}.

Definition initialState : AppState :=
  mkAppState ViewState.landing [] None None None [] None false.

Definition initial : Component := mkComponent initialState [] false.

(** Values derived at each render (lines 25-27). *)
Definition activeCourse (r : Component) : option Course.t :=
  List.find (fun c => bool_decide (Some (Course.id c) = activeCourseId (state r)))
    (courses (state r)).

Definition activeModule (r : Component) : option Mod.t :=
  match activeCourse r, activeModuleIndex (state r) with
  | Some c, Some i => Js.index (Course.modules c) i
  | _, _ => None
  end.

Definition activeLesson (r : Component) : option Lesson.t :=
  match activeModule r, activeLessonIndex (state r) with
  | Some m, Some i => Js.index (Mod.lessons m) i
  | _, _ => None
  end.

(** ** Actions *)

(** The history entries sent to the service: [{ role, parts: [{ text }] }]. *)
Record ApiMessage := mkApiMessage { api_role : Role.t; api_text : jsstring }.

Definition toApi (msg : Message.t) : ApiMessage :=
  mkApiMessage (Message.role msg) (Message.content msg).

Inductive action :=
| PreventDefault
| SetState (f : AppState -> AppState)
| SetIsStreaming (b : bool)
| SetTopicInput (s : jsstring)
| CallGenerateCourseCurriculum (topic : jsstring)
| CallStreamChatResponse (history : list ApiMessage) (prompt : jsstring)
| CallGenerateQuizForModule (moduleTitle topic : jsstring)
| ConsoleError
| Alert (text : jsstring)
| Uncaught.

Definition perform (w : Component) (a : action) : Component :=
  match a with
  | SetState f => mkComponent (f (state w)) (topicInput w) (isStreaming w)
  | SetIsStreaming b => mkComponent (state w) (topicInput w) b
  | SetTopicInput s => mkComponent (state w) s (isStreaming w)
  | _ => w
  end.

Definition run (acts : list action) (w : Component) : Component :=
  fold_left perform acts w.

Definition is_alert (a : action) : bool :=
  match a with Alert _ => true | _ => false end.

Definition is_api_call (a : action) : bool :=
  match a with
  | CallGenerateCourseCurriculum _ | CallStreamChatResponse _ _
  | CallGenerateQuizForModule _ _ => true
  | _ => false
  end.

Definition is_console_error (a : action) : bool :=
  match a with ConsoleError => true | _ => false end.

(** The alerts a run raises, in order. *)
Definition alerts (acts : list action) : list jsstring :=
  omap (fun a => match a with Alert t => Some t | _ => None end) acts.

(** ** handleGenerateCurriculum (lines 29-60) *)

(** The greeting of lines 48-52; [None] when [course.modules[0]] or its
    [lessons[0]] is [undefined] and the template throws a [TypeError]. *)
Definition greeting (uuid : jsstring) (course : Course.t) : option Message.t :=
  match Js.index (Course.modules course) 0 with
  | None => None
  | Some m0 =>
    match Js.index (Mod.lessons m0) 0 with
    | None => None
    | Some l0 =>
      Some (Message.mk uuid Role.model
        (Js.lit "Welcome to **" ++ Course.title course
         ++ Js.lit "**! I'm your AI tutor. We'll start with **"
         ++ Lesson.title l0 ++ Js.lit "**. " ++ Js.nl ++ Js.nl
         ++ Lesson.description l0 ++ Js.nl ++ Js.nl
         ++ Js.lit "Ask me anything to begin!")
        None)
    end
  end.

Definition curriculumCatch : list action :=
  [ ConsoleError;
    Alert (Js.lit "Failed to generate curriculum. Please try again.");
    SetState (set_isLoading false) ].

(** The updater of lines 36-45. *)
Definition openCourse (course : Course.t) (prev : AppState) : AppState :=
  mkAppState ViewState.course (courses prev ++ [course]) (Some (Course.id course))
    (Some 0) (Some 0) [] (activeQuiz prev) false.

(** [uuid] is the value of [crypto.randomUUID()], [outcome] what the awaited
    [generateCourseCurriculum] gives: [Some course], or [None] if it rejects. *)
Definition handleGenerateCurriculum (r : Component) (uuid : jsstring)
    (outcome : option Course.t) : list action :=
  PreventDefault ::
  if negb (Js.truthy (Js.trim (topicInput r))) then []
  else
    SetState (set_isLoading true) ::
    CallGenerateCourseCurriculum (topicInput r) ::
    match outcome with
    | None => curriculumCatch
    | Some course =>
      SetState (openCourse course) ::
      match greeting uuid course with
      | Some g => [ SetState (set_chatHistory [g]) ]
      | None => curriculumCatch
      end
    end.

(** ** handleSelectLesson (lines 62-85) *)

Definition contextMsg (uuid : jsstring) (module : Mod.t) (lesson : Lesson.t)
    : Message.t :=
  Message.mk uuid Role.model
    (Js.lit "Moving on to **" ++ Mod.title module ++ Js.lit ": "
     ++ Lesson.title lesson ++ Js.lit "**." ++ Js.nl ++ Js.nl
     ++ Lesson.description lesson ++ Js.nl ++ Js.nl ++ Js.lit "Ready?")
    None.

Definition appendMessage (msg : Message.t) (prev : AppState) : AppState :=
  set_chatHistory (chatHistory prev ++ [msg]) prev.

(** [module.lessons] with [module] undefined, and [lesson.title] with
    [lesson] undefined, throw outside any [try]: the handler stops there. *)
Definition handleSelectLesson (r : Component) (moduleIndex lessonIndex : Z)
    (uuid : jsstring) : list action :=
  match activeCourse r with
  | None => []
  | Some course =>
    match Js.index (Course.modules course) moduleIndex with
    | None => [ Uncaught ]
    | Some module =>
      SetState (set_activeIndices moduleIndex lessonIndex) ::
      match Js.index (Mod.lessons module) lessonIndex with
      | None => [ Uncaught ]
      | Some lesson => [ SetState (appendMessage (contextMsg uuid module lesson)) ]
      end
    end
  end.

(** ** handleSendMessage (lines 87-140) *)

Definition contextAwarePrompt (course : Course.t) (module : Mod.t)
    (lesson : Lesson.t) (text : jsstring) : jsstring :=
  Js.lit "[Current Context: Course " ++ Js.dquote ++ Course.title course
  ++ Js.dquote ++ Js.lit ", Module " ++ Js.dquote ++ Mod.title module
  ++ Js.dquote ++ Js.lit ", Lesson " ++ Js.dquote ++ Lesson.title lesson
  ++ Js.dquote ++ Js.lit "]" ++ Js.nl ++ Js.lit "User Question: " ++ text.

(** The updater of lines 121-126. *)
Definition setContentOf (modelMsgId fullResponse : jsstring) (prev : AppState)
    : AppState :=
  set_chatHistory
    (List.map (fun msg => if bool_decide (Message.id msg = modelMsgId)
                          then Message.withContent msg fullResponse else msg)
       (chatHistory prev))
    prev.

(** The updater of lines 133-138. *)
Definition stopStreamingOf (modelMsgId : jsstring) (prev : AppState) : AppState :=
  set_chatHistory
    (List.map (fun msg => if bool_decide (Message.id msg = modelMsgId)
                          then Message.withIsStreaming msg false else msg)
       (chatHistory prev))
    prev.

(** The callback of lines 119-127, once per chunk; [fullResponse] is the
    [let] variable it accumulates into. *)
Fixpoint onChunks (modelMsgId fullResponse : jsstring) (chunks : list jsstring)
    : list action :=
  match chunks with
  | [] => []
  | chunk :: rest =>
    let fullResponse := fullResponse ++ chunk in
    SetState (setContentOf modelMsgId fullResponse)
    :: onChunks modelMsgId fullResponse rest
  end.

(** [userId] and [modelMsgId] are the two [crypto.randomUUID()] values;
    the stream delivers [chunks] and then resolves ([ok = true]) or
    rejects ([ok = false]). *)
Definition handleSendMessage (r : Component) (text userId modelMsgId : jsstring)
    (chunks : list jsstring) (ok : bool) : list action :=
  match activeCourse r, activeModule r, activeLesson r with
  | Some course, Some module, Some lesson =>
    let userMsg := Message.mk userId Role.user text None in
    let initialModelMsg := Message.mk modelMsgId Role.model [] (Some true) in
    [ SetState (appendMessage userMsg);
      SetIsStreaming true;
      SetState (appendMessage initialModelMsg);
      CallStreamChatResponse (List.map toApi (chatHistory (state r)))
        (contextAwarePrompt course module lesson text) ]
    ++ onChunks modelMsgId [] chunks
    ++ (if ok then [] else [ ConsoleError ])
    ++ [ SetIsStreaming false; SetState (stopStreamingOf modelMsgId) ]
  | _, _, _ => []
  end.

(** ** handleTakeQuiz (lines 142-159) *)

Definition quizCatch : list action :=
  [ ConsoleError;
    SetState (set_isLoading false);
    Alert (Js.lit "Could not generate quiz. Try again.") ].

(** The updater of lines 149-153. *)
Definition openQuiz (quiz : Quiz.t) (prev : AppState) : AppState :=
  set_isLoading false (set_activeQuiz (Some quiz) prev).

(** [module.title] is read inside the [try], so an undefined [module] ends
    in the [catch] block without the service being called. *)
Definition handleTakeQuiz (r : Component) (moduleIndex : Z)
    (outcome : option Quiz.t) : list action :=
  match activeCourse r with
  | None => []
  | Some course =>
    SetState (set_isLoading true) ::
    match Js.index (Course.modules course) moduleIndex with
    | None => quizCatch
    | Some module =>
      CallGenerateQuizForModule (Mod.title module) (Course.topic course) ::
      match outcome with
      | Some quiz => [ SetState (openQuiz quiz) ]
      | None => quizCatch
      end
    end
  end.

(** ** The inline callbacks of the JSX (lines 163, 168, 200, 219) *)

Definition onHomeClick : list action := [ SetState (set_currentView ViewState.landing) ].
Definition onClose : list action := [ SetState (set_activeQuiz None) ].
Definition onChange (value : jsstring) : list action := [ SetTopicInput value ].

(** ** What is rendered (lines 161-255) *)

Record Rendered := mkRendered {
  quizModal : option Quiz.t;
  landingPage : bool;
  sidebar : option Course.t;
  chat : option (list Message.t)
}.

Definition render (w : Component) : Rendered :=
  let isLanding :=
    match currentView (state w) with ViewState.landing => true | _ => false end in
  mkRendered
    (activeQuiz (state w))
    isLanding
    (if isLanding then None else activeCourse w)
    (if isLanding then None
     else match activeLesson w with
          | Some _ => Some (chatHistory (state w))
          | None => None
          end).

(** ** Events and the two ways handlers are scheduled *)

Inductive event :=
| Submit (uuid : jsstring) (outcome : option Course.t)
| SelectLesson (moduleIndex lessonIndex : Z) (uuid : jsstring)
| SendMessage (text userId modelMsgId : jsstring) (chunks : list jsstring) (ok : bool)
| TakeQuiz (moduleIndex : Z) (outcome : option Quiz.t)
| HomeClick
| CloseQuiz
| ChangeTopic (value : jsstring).

(** The actions of the handler an event starts, created in snapshot [r]. *)
Definition handler (r : Component) (e : event) : list action :=
  match e with
  | Submit uuid outcome => handleGenerateCurriculum r uuid outcome
  | SelectLesson m l uuid => handleSelectLesson r m l uuid
  | SendMessage text userId modelMsgId chunks ok =>
    handleSendMessage r text userId modelMsgId chunks ok
  | TakeQuiz m outcome => handleTakeQuiz r m outcome
  | HomeClick => onHomeClick
  | CloseQuiz => onClose
  | ChangeTopic value => onChange value
  end.

(** One handler at a time: each runs to its end before the next event. *)
Definition dispatch (w : Component) (e : event) : Component :=
  run (handler w e) w.

Inductive reachable : Component -> Prop :=
| reachable_initial : reachable initial
| reachable_dispatch w e : reachable w -> reachable (dispatch w e).

(** Overlapping handlers: an event may fire while earlier handlers are still
    waiting for the service, and the pending handlers advance in any order. *)
Record Config := mkConfig {
  component : Component;
  pending : list (list action)
}.

Definition initialConfig : Config := mkConfig initial [].

Inductive step : Config -> Config -> Prop :=
| step_fire c e :
    step c (mkConfig (component c) (handler (component c) e :: pending c))
| step_advance c before a rest after :
    pending c = before ++ (a :: rest) :: after ->
    step c (mkConfig (perform (component c) a) (before ++ rest :: after))
| step_finish c before after :
    pending c = before ++ [] :: after ->
    step c (mkConfig (component c) (before ++ after)).


(** No stream in flight: the flag is down and no message is marked. *)
Definition notStreaming (msg : Message.t) : bool :=
  match Message.isStreaming msg with Some true => false | _ => true end.

Definition quiescent (w : Component) : Prop :=
  isStreaming w = false /\ forallb notStreaming (chatHistory (state w)) = true.

(** ** Postconditions and sample data *)

(** The state a successful curriculum generation is expected to leave. *)
Definition courseOpened (prev : AppState) (course : Course.t) (s : AppState)
    : Prop :=
  courses s = courses prev ++ [course]
  /\ activeCourseId s = Some (Course.id course)
  /\ currentView s = ViewState.course
  /\ activeModuleIndex s = Some 0
  /\ activeLessonIndex s = Some 0
  /\ isLoading s = false
  /\ exists g, chatHistory s = [g] /\ Message.role g = Role.model.

(** Errors a run reports or lets escape. *)
Definition is_error (a : action) : bool :=
  match a with ConsoleError | Alert _ | Uncaught => true | _ => false end.

Definition demoLesson : Lesson.t :=
  Lesson.mk (Js.lit "Perceptron") (Js.lit "A single neuron.").
Definition demoModule : Mod.t := Mod.mk (Js.lit "Basics") [demoLesson].
Definition demoCourse : Course.t :=
  Course.mk (Js.lit "c-1") (Js.lit "ML") (Js.lit "ML 101") (Js.lit "Intro")
    [demoModule].
Definition emptyCourse : Course.t :=
  Course.mk (Js.lit "c-2") (Js.lit "ML") (Js.lit "ML 101") (Js.lit "Intro") [].
Definition demoQuiz : Quiz.t := Quiz.mk (Js.lit "Basics quiz") [].

(** The landing page with a topic typed in, and the course page after a
    successful generation. *)
Definition typed : Component := dispatch initial (ChangeTopic (Js.lit "ML")).
Definition demoWorld : Component :=
  dispatch typed (Submit (Js.lit "u-0") (Some demoCourse)).

(** A landing page whose topic is a space, a tab and a no-break space. *)
Definition blank : Component := dispatch initial (ChangeTopic [32; 9; 160]%N).

(** An action keeps a property of the component. *)
Definition preserves (P : Component -> Prop) (a : action) : Prop :=
  forall w, P w -> P (perform w a).

(** The view is one of the two the handlers assign. *)
Definition viewOk (w : Component) : Prop :=
  currentView (state w) = ViewState.landing
  \/ currentView (state w) = ViewState.course.

(** Only the messages with the given id may still be marked as streaming. *)
Definition markedOnly (modelMsgId : jsstring) (w : Component) : Prop :=
  forallb (fun msg => notStreaming msg
                      || bool_decide (Message.id msg = modelMsgId))
    (chatHistory (state w)) = true.

(** The invariant carried along overlapping handlers: the view is fine and
    so is every action still pending. *)
Definition viewInvariant (c : Config) : Prop :=
  viewOk (component c) /\ Forall (Forall (preserves viewOk)) (pending c).

(** Proof steps shared by the invariants: case analysis on the branches of
    a handler, then one goal per action of the list it yields. *)
Ltac split_handler :=
  repeat match goal with
         | |- context [match ?x with _ => _ end] => destruct x eqn:?
         end.

Ltac each_action :=
  repeat first [ apply List.Forall_nil | apply List.Forall_cons; [intros ? ?|] ].

(** ** Further definitions read off the source *)


(** The active id, when there is one, names a course of the list. *)
Definition courseResolves (w : Component) : Prop :=
  match activeCourseId (state w) with
  | None => True
  | Some id => exists c, activeCourse w = Some c /\ Course.id c = id
  end.

(** The course page is only shown with an active id. *)
Definition courseViewHasId (w : Component) : Prop :=
  currentView (state w) = ViewState.course -> activeCourseId (state w) <> None.

(** The three parts of the position are set together. *)
Definition positionCoherent (s : AppState) : Prop :=
  (activeCourseId s = None /\ activeModuleIndex s = None
   /\ activeLessonIndex s = None)
  \/ (activeCourseId s <> None /\ activeModuleIndex s <> None
      /\ activeLessonIndex s <> None).

(** Two components that differ at most in the chat history and in the
    [isStreaming] cell. *)
Definition sameButChat (w0 w : Component) : Prop :=
  set_chatHistory [] (state w) = set_chatHistory [] (state w0)
  /\ topicInput w = topicInput w0.

(** A second course carrying the id of [demoCourse]. *)
Definition twinCourse : Course.t :=
  Course.mk (Js.lit "c-1") (Js.lit "RL") (Js.lit "RL 101") (Js.lit "Intro")
    [Mod.mk (Js.lit "Bandits") [Lesson.mk (Js.lit "Arms") (Js.lit "Pull one.")]].

(** A course with a module that has no lesson. *)
Definition hollowCourse : Course.t :=
  Course.mk (Js.lit "c-3") (Js.lit "CV") (Js.lit "CV 101") (Js.lit "Intro")
    [Mod.mk (Js.lit "Pixels") []].

(** Both links between the view, the active id and the list of courses. *)
Definition wellLinked (w : Component) : Prop :=
  courseResolves w /\ courseViewHasId w.


(** * Properties *)

(** ** Sanity checks of the embedding *)

Example trim_example :
  Js.trim ([32; 9] ++ Js.lit "deep learning" ++ [160; 10])%N = Js.lit "deep learning".
Proof. reflexivity. Qed.

Example index_example :
  Js.index [demoLesson] 0 = Some demoLesson
  /\ Js.index [demoLesson] 1 = None
  /\ Js.index [demoLesson] (-1) = None.
Proof. repeat split. Qed.

Example greeting_example :
  option_map Message.content (greeting (Js.lit "u-0") demoCourse)
  = Some (Js.lit "Welcome to **ML 101**! I'm your AI tutor. We'll start with **Perceptron**. "
          ++ [10; 10]%N ++ Js.lit "A single neuron." ++ [10; 10]%N
          ++ Js.lit "Ask me anything to begin!").
Proof. reflexivity. Qed.

Example demoWorld_example :
  state demoWorld
  = mkAppState ViewState.course [demoCourse] (Some (Js.lit "c-1")) (Some 0) (Some 0)
      (match greeting (Js.lit "u-0") demoCourse with Some g => [g] | None => [] end)
      None false
  /\ activeLesson demoWorld = Some demoLesson.
Proof. split; reflexivity. Qed.

Lemma demoWorld_reachable : reachable demoWorld.
Proof.
  unfold demoWorld, typed. do 2 apply reachable_dispatch. apply reachable_initial.
Qed.

(** ** Running action lists *)

Lemma run_app acts1 acts2 w : run (acts1 ++ acts2) w = run acts2 (run acts1 w).
Proof. apply fold_left_app. Qed.

Lemma run_cons a acts w : run (a :: acts) w = run acts (perform w a).
Proof. reflexivity. Qed.

(** ** Trimming *)

Lemma trimStart_blank s : forallb Js.isWhiteSpace s = true -> Js.trimStart s = [].
Proof.
  induction s as [|c s IH]; simpl; [easy|].
  intros [Hc Hs]%andb_true_iff. rewrite Hc. auto.
Qed.

Lemma trimStart_nil_blank s : Js.trimStart s = [] -> forallb Js.isWhiteSpace s = true.
Proof.
  induction s as [|c s IH]; simpl; [easy|].
  destruct (Js.isWhiteSpace c); [auto | discriminate].
Qed.

Lemma trimStart_head s :
  Js.trimStart s = [] \/
  exists c r, Js.trimStart s = c :: r /\ Js.isWhiteSpace c = false.
Proof.
  induction s as [|c s IH]; simpl; [now left|].
  destruct (Js.isWhiteSpace c) eqn:Hc; [exact IH|].
  right. now exists c, s.
Qed.

Lemma forallb_rev {A} (p : A -> bool) (l : list A) :
  forallb p (rev l) = forallb p l.
Proof.
  induction l as [|x l IH]; simpl; [easy|].
  rewrite forallb_app, IH. simpl. rewrite andb_true_r. apply andb_comm.
Qed.

(** [trim] leaves nothing exactly of the strings made of white space only. *)
Lemma trim_nil_iff s : Js.trim s = [] <-> forallb Js.isWhiteSpace s = true.
Proof.
  unfold Js.trim, Js.trimEnd. split.
  - intros H. apply (f_equal (@rev N)) in H. rewrite rev_involutive in H.
    simpl in H. apply trimStart_nil_blank in H. rewrite forallb_rev in H.
    destruct (trimStart_head s) as [E | (c & r & E & Hc)].
    + now apply trimStart_nil_blank.
    + rewrite E in H. simpl in H. rewrite Hc in H. discriminate.
  - intros H. rewrite (trimStart_blank s H). reflexivity.
Qed.

Lemma index_0_cons {A} (x : A) (l : list A) : Js.index (x :: l) 0 = Some x.
Proof. reflexivity. Qed.

(** ** handleGenerateCurriculum *)

Lemma greeting_role uuid course g :
  greeting uuid course = Some g -> Message.role g = Role.model /\ Message.id g = uuid.
Proof.
  unfold greeting.
  destruct (Js.index (Course.modules course) 0) as [m0|]; [|discriminate].
  destruct (Js.index (Mod.lessons m0) 0) as [l0|]; [|discriminate].
  intros [= <-]. split; reflexivity.
Qed.

Lemma greeting_no_module uuid course :
  Course.modules course = [] -> greeting uuid course = None.
Proof. unfold greeting. intros ->. reflexivity. Qed.

Lemma greeting_no_lesson uuid course m0 ms :
  Course.modules course = m0 :: ms -> Mod.lessons m0 = [] ->
  greeting uuid course = None.
Proof. unfold greeting. intros -> . simpl. intros ->. reflexivity. Qed.

(** The guard of line 31 lets the handler through exactly on a topic that
    is not blank. *)
Lemma generate_guard_open r uuid outcome :
  Js.trim (topicInput r) <> [] ->
  handleGenerateCurriculum r uuid outcome =
  PreventDefault :: SetState (set_isLoading true)
  :: CallGenerateCourseCurriculum (topicInput r)
  :: match outcome with
     | None => curriculumCatch
     | Some course =>
       SetState (openCourse course)
       :: match greeting uuid course with
          | Some g => [ SetState (set_chatHistory [g]) ]
          | None => curriculumCatch
          end
     end.
Proof.
  intros H. unfold handleGenerateCurriculum.
  destruct (Js.trim (topicInput r)); [congruence | reflexivity].
Qed.

Lemma generate_guard_closed r uuid outcome :
  Js.trim (topicInput r) = [] ->
  handleGenerateCurriculum r uuid outcome = [ PreventDefault ].
Proof. intros H. unfold handleGenerateCurriculum. rewrite H. reflexivity. Qed.

(** C1, as amended: when the service returns a course whose first module
    has a first lesson, the course is appended to the end of [courses], it
    becomes the active course, the view is ['course'], both indices are 0,
    [isLoading] is false and the chat history is exactly the greeting, a
    message of role ['model']. *)
Theorem generate_success_opens_course r uuid course m0 l0 :
  Js.trim (topicInput r) <> [] ->
  Js.index (Course.modules course) 0 = Some m0 ->
  Js.index (Mod.lessons m0) 0 = Some l0 ->
  courseOpened (state r) course
    (state (run (handleGenerateCurriculum r uuid (Some course)) r)).
Proof.
  intros Hguard Hm Hl. rewrite generate_guard_open by assumption.
  assert (Hg : exists g, greeting uuid course = Some g).
  { unfold greeting. rewrite Hm, Hl. eauto. }
  destruct Hg as [g Hg]. rewrite Hg. cbn.
  repeat split. exists g. split; [reflexivity|].
  now apply greeting_role in Hg.
Qed.

Lemma generate_success_opens_course_witness :
  courseOpened (state typed) demoCourse
    (state (run (handleGenerateCurriculum typed (Js.lit "u-0") (Some demoCourse)) typed)).
Proof.
  refine (generate_success_opens_course typed (Js.lit "u-0") demoCourse
            demoModule demoLesson _ _ _).
  - vm_compute. discriminate.
  - reflexivity.
  - reflexivity.
Defined.

(** C1 as stated fails: the service may return a course without modules;
    the greeting then throws, and the chat history stays empty. *)
Lemma generate_success_counterexample :
  ~ courseOpened (state typed) emptyCourse
      (state (run (handleGenerateCurriculum typed (Js.lit "u-0") (Some emptyCourse)) typed)).
Proof.
  intros (_ & _ & _ & _ & _ & _ & g & Hg & _).
  vm_compute in Hg. discriminate.
Qed.

(** C10: when the generated course has a first module and that module has
    a first lesson, the greeting is built without error: the handler
    reports nothing, and once past its guard it ends with the greeting as
    the whole chat history. *)
Theorem greeting_indexing_safe r uuid course m0 ms l0 ls :
  Course.modules course = m0 :: ms ->
  Mod.lessons m0 = l0 :: ls ->
  exists g,
    greeting uuid course = Some g
    /\ existsb is_error (handleGenerateCurriculum r uuid (Some course)) = false
    /\ (Js.trim (topicInput r) <> [] ->
        chatHistory (state (run (handleGenerateCurriculum r uuid (Some course)) r))
        = [g]).
Proof.
  intros Hm Hl.
  assert (Hg : exists g, greeting uuid course = Some g).
  { unfold greeting. rewrite Hm, index_0_cons, Hl, index_0_cons. eauto. }
  destruct Hg as [g Hg]. exists g. split; [exact Hg|].
  destruct (decide (Js.trim (topicInput r) = [])) as [E|E].
  - rewrite generate_guard_closed by assumption. split; [reflexivity | congruence].
  - rewrite generate_guard_open by assumption. rewrite Hg. split; reflexivity.
Qed.

Lemma greeting_indexing_safe_witness :
  exists g,
    greeting (Js.lit "u-0") demoCourse = Some g
    /\ existsb is_error (handleGenerateCurriculum typed (Js.lit "u-0") (Some demoCourse))
       = false
    /\ (Js.trim (topicInput typed) <> [] ->
        chatHistory (state (run (handleGenerateCurriculum typed (Js.lit "u-0")
                                   (Some demoCourse)) typed)) = [g]).
Proof.
  apply (greeting_indexing_safe typed (Js.lit "u-0") demoCourse demoModule []
           demoLesson []); reflexivity.
Defined.

(** C7: when the service call throws, the component ends as it started
    except that [isLoading] is false. *)
Theorem generate_failure_restores r uuid :
  Js.trim (topicInput r) <> [] ->
  run (handleGenerateCurriculum r uuid None) r
  = mkComponent (set_isLoading false (state r)) (topicInput r) (isStreaming r).
Proof.
  intros Hguard. rewrite generate_guard_open by assumption. reflexivity.
Qed.

Lemma generate_failure_restores_witness :
  run (handleGenerateCurriculum typed (Js.lit "u-0") None) typed
  = mkComponent (set_isLoading false (state typed)) (topicInput typed)
      (isStreaming typed).
Proof.
  apply (generate_failure_restores typed (Js.lit "u-0")).
  vm_compute. discriminate.
Defined.

(** ** The guards *)

Lemma send_guard_open r text userId modelMsgId chunks ok course module lesson :
  activeCourse r = Some course ->
  activeModule r = Some module ->
  activeLesson r = Some lesson ->
  handleSendMessage r text userId modelMsgId chunks ok =
  [ SetState (appendMessage (Message.mk userId Role.user text None));
    SetIsStreaming true;
    SetState (appendMessage (Message.mk modelMsgId Role.model [] (Some true)));
    CallStreamChatResponse (List.map toApi (chatHistory (state r)))
      (contextAwarePrompt course module lesson text) ]
  ++ onChunks modelMsgId [] chunks
  ++ (if ok then [] else [ ConsoleError ])
  ++ [ SetIsStreaming false; SetState (stopStreamingOf modelMsgId) ].
Proof. intros Hc Hm Hl. unfold handleSendMessage. rewrite Hc, Hm, Hl. reflexivity. Qed.

Lemma send_guard_closed r text userId modelMsgId chunks ok :
  activeCourse r = None \/ activeModule r = None \/ activeLesson r = None ->
  handleSendMessage r text userId modelMsgId chunks ok = [].
Proof.
  unfold handleSendMessage. intros [H | [H | H]]; rewrite H.
  - reflexivity.
  - now destruct (activeCourse r).
  - now destruct (activeCourse r), (activeModule r).
Qed.

(** C8: without an active course, module or lesson [handleSendMessage]
    changes nothing and calls no service, and so does
    [handleGenerateCurriculum] on a topic that is empty or made of white
    space only. *)
Theorem guards_leave_state r :
  (forall text userId modelMsgId chunks ok,
     activeCourse r = None \/ activeModule r = None \/ activeLesson r = None ->
     run (handleSendMessage r text userId modelMsgId chunks ok) r = r
     /\ existsb is_api_call (handleSendMessage r text userId modelMsgId chunks ok)
        = false)
  /\ (forall uuid outcome,
       forallb Js.isWhiteSpace (topicInput r) = true ->
       run (handleGenerateCurriculum r uuid outcome) r = r
       /\ existsb is_api_call (handleGenerateCurriculum r uuid outcome) = false).
Proof.
  split.
  - intros text userId modelMsgId chunks ok H.
    rewrite send_guard_closed by assumption. split; reflexivity.
  - intros uuid outcome H. apply trim_nil_iff in H.
    rewrite generate_guard_closed by assumption. split; reflexivity.
Qed.

Lemma guards_leave_state_witness :
  (run (handleSendMessage initial (Js.lit "hi") (Js.lit "u-1") (Js.lit "u-2")
          [Js.lit "ok"] true) initial = initial
   /\ existsb is_api_call
        (handleSendMessage initial (Js.lit "hi") (Js.lit "u-1") (Js.lit "u-2")
           [Js.lit "ok"] true) = false)
  /\ (run (handleGenerateCurriculum blank (Js.lit "u-0") (Some demoCourse)) blank
      = blank
      /\ existsb is_api_call
           (handleGenerateCurriculum blank (Js.lit "u-0") (Some demoCourse)) = false).
Proof.
  split.
  - apply (proj1 (guards_leave_state initial)). left. reflexivity.
  - apply (proj2 (guards_leave_state blank)). reflexivity.
Defined.

(** ** handleSelectLesson *)

(** C4: selecting an existing lesson of the active course sets the two
    indices, appends one context-switch message of role ['model'] to the
    end of the chat history and leaves every other field as it was. *)
Theorem select_lesson_frame r m l uuid course module lesson :
  activeCourse r = Some course ->
  Js.index (Course.modules course) m = Some module ->
  Js.index (Mod.lessons module) l = Some lesson ->
  run (handleSelectLesson r m l uuid) r
  = mkComponent
      (mkAppState (currentView (state r)) (courses (state r))
         (activeCourseId (state r)) (Some m) (Some l)
         (chatHistory (state r) ++ [contextMsg uuid module lesson])
         (activeQuiz (state r)) (isLoading (state r)))
      (topicInput r) (isStreaming r)
  /\ Message.role (contextMsg uuid module lesson) = Role.model.
Proof.
  intros Hc Hm Hl. unfold handleSelectLesson. rewrite Hc, Hm, Hl.
  split; reflexivity.
Qed.

Lemma select_lesson_frame_witness :
  run (handleSelectLesson demoWorld 0 0 (Js.lit "u-3")) demoWorld
  = mkComponent
      (mkAppState (currentView (state demoWorld)) (courses (state demoWorld))
         (activeCourseId (state demoWorld)) (Some 0) (Some 0)
         (chatHistory (state demoWorld)
          ++ [contextMsg (Js.lit "u-3") demoModule demoLesson])
         (activeQuiz (state demoWorld)) (isLoading (state demoWorld)))
      (topicInput demoWorld) (isStreaming demoWorld)
  /\ Message.role (contextMsg (Js.lit "u-3") demoModule demoLesson) = Role.model.
Proof.
  apply (select_lesson_frame demoWorld 0 0 (Js.lit "u-3") demoCourse demoModule
           demoLesson); reflexivity.
Defined.

(** ** handleTakeQuiz *)

(** C5: with an active course, a generated quiz becomes [activeQuiz] with
    [isLoading] false and the other fields untouched; when no quiz is
    produced, [activeQuiz] stays and [isLoading] is false. *)
Theorem take_quiz_result r m course outcome :
  activeCourse r = Some course ->
  (forall module quiz,
     Js.index (Course.modules course) m = Some module ->
     outcome = Some quiz ->
     run (handleTakeQuiz r m outcome) r
     = mkComponent
         (mkAppState (currentView (state r)) (courses (state r))
            (activeCourseId (state r)) (activeModuleIndex (state r))
            (activeLessonIndex (state r)) (chatHistory (state r))
            (Some quiz) false)
         (topicInput r) (isStreaming r))
  /\ (Js.index (Course.modules course) m = None \/ outcome = None ->
      run (handleTakeQuiz r m outcome) r
      = mkComponent
          (mkAppState (currentView (state r)) (courses (state r))
             (activeCourseId (state r)) (activeModuleIndex (state r))
             (activeLessonIndex (state r)) (chatHistory (state r))
             (activeQuiz (state r)) false)
          (topicInput r) (isStreaming r)).
Proof.
  intros Hc. unfold handleTakeQuiz. rewrite Hc. split.
  - intros module quiz Hm ->. rewrite Hm. reflexivity.
  - intros [Hm | ->].
    + rewrite Hm. reflexivity.
    + destruct (Js.index (Course.modules course) m); reflexivity.
Qed.

Lemma take_quiz_result_witness :
  activeQuiz (state (run (handleTakeQuiz demoWorld 0 (Some demoQuiz)) demoWorld))
  = Some demoQuiz
  /\ activeQuiz (state (run (handleTakeQuiz demoWorld 7 (Some demoQuiz)) demoWorld))
     = None.
Proof.
  split.
  - rewrite (proj1 (take_quiz_result demoWorld 0 demoCourse (Some demoQuiz)
                      eq_refl) demoModule demoQuiz eq_refl eq_refl).
    reflexivity.
  - rewrite (proj2 (take_quiz_result demoWorld 7 demoCourse (Some demoQuiz)
                      eq_refl) (or_introl eq_refl)).
    reflexivity.
Defined.

(** ** handleSendMessage: the streamed tokens *)

Lemma onChunks_app modelMsgId acc chunks more :
  onChunks modelMsgId acc (chunks ++ more)
  = onChunks modelMsgId acc chunks
    ++ onChunks modelMsgId (acc ++ concat chunks) more.
Proof.
  revert acc. induction chunks as [|chunk chunks IH]; intros acc; simpl.
  - now rewrite app_nil_r.
  - rewrite IH. now rewrite <- app_assoc.
Qed.

Lemma onChunks_length modelMsgId acc chunks :
  length (onChunks modelMsgId acc chunks) = length chunks.
Proof.
  revert acc. induction chunks as [|chunk chunks IH]; intros acc; simpl;
    [reflexivity | now rewrite IH].
Qed.

Lemma alerts_onChunks modelMsgId acc chunks :
  alerts (onChunks modelMsgId acc chunks) = [].
Proof.
  revert acc. induction chunks as [|chunk chunks IH]; intros acc; simpl;
    [reflexivity | apply IH].
Qed.

Lemma console_onChunks modelMsgId acc chunks :
  List.filter is_console_error (onChunks modelMsgId acc chunks) = [].
Proof.
  revert acc. induction chunks as [|chunk chunks IH]; intros acc; simpl;
    [reflexivity | apply IH].
Qed.

(** The updater rewrites the messages carrying the id and no other. *)
Lemma map_only_last {A} (f : A -> A) (p : A -> bool) (h : list A) (x : A) :
  Forall (fun y => p y = false) h ->
  List.map (fun y => if p y then f y else y) (h ++ [x])
  = h ++ [if p x then f x else x].
Proof.
  intros Hh. rewrite List.map_app. f_equal.
  induction Hh as [|y h Hy _ IH]; simpl; [reflexivity|].
  now rewrite Hy, IH.
Qed.

Lemma withContent_content msg : Message.withContent msg (Message.content msg) = msg.
Proof. now destruct msg. Qed.

Lemma set_chatHistory_same s : set_chatHistory (chatHistory s) s = s.
Proof. now destruct s. Qed.

Lemma onChunks_run modelMsgId chunks : forall acc w h msg,
  chatHistory (state w) = h ++ [msg] ->
  Forall (fun y => bool_decide (Message.id y = modelMsgId) = false) h ->
  Message.id msg = modelMsgId ->
  Message.content msg = acc ->
  run (onChunks modelMsgId acc chunks) w
  = mkComponent
      (set_chatHistory (h ++ [Message.withContent msg (acc ++ concat chunks)])
         (state w))
      (topicInput w) (isStreaming w).
Proof.
  induction chunks as [|chunk chunks IH]; intros acc w h msg Hw Hh Hid Hacc.
  - simpl. rewrite app_nil_r, <- Hacc, withContent_content, <- Hw.
    rewrite set_chatHistory_same. now destruct w.
  - simpl onChunks. rewrite run_cons.
    rewrite (IH (acc ++ chunk) _ h (Message.withContent msg (acc ++ chunk))).
    + simpl. now rewrite <- app_assoc.
    + simpl. rewrite Hw.
      rewrite (map_only_last (fun y => Message.withContent y (acc ++ chunk))
                 (fun y => bool_decide (Message.id y = modelMsgId)) h msg Hh).
      now rewrite bool_decide_eq_true_2.
    + exact Hh.
    + exact Hid.
    + reflexivity.
Qed.

(** Whatever the ids are, the callback keeps the length of the history and
    every message whose id is not [modelMsgId], at its position. *)
Lemma map_keeps_others {A} (f : A -> A) (p : A -> bool) (l : list A) :
  forall (i : nat) (x : A),
  l !! i = Some x -> p x = false ->
  List.map (fun y => if p y then f y else y) l !! i = Some x.
Proof.
  induction l as [|y l IH]; intros [|i] x Hx Hp; simpl in *; try discriminate.
  - injection Hx as ->. now rewrite Hp.
  - now apply IH.
Qed.

Lemma onChunks_keeps_others modelMsgId chunks : forall acc w (i : nat) msg,
  chatHistory (state w) !! i = Some msg ->
  Message.id msg <> modelMsgId ->
  chatHistory (state (run (onChunks modelMsgId acc chunks) w)) !! i = Some msg
  /\ length (chatHistory (state (run (onChunks modelMsgId acc chunks) w)))
     = length (chatHistory (state w)).
Proof.
  induction chunks as [|chunk chunks IH]; intros acc w i msg Hi Hid; [now split|].
  simpl onChunks. rewrite run_cons.
  destruct (IH (acc ++ chunk)
              (perform w (SetState (setContentOf modelMsgId (acc ++ chunk)))) i msg)
    as [Hlookup Hlen].
  - simpl. apply (map_keeps_others _ (fun y => bool_decide (Message.id y = modelMsgId)));
      [exact Hi | now apply bool_decide_eq_false_2].
  - exact Hid.
  - split; [exact Hlookup|]. rewrite Hlen. simpl. apply length_map.
Qed.

(** C2: once the callback has run on the chunks [c1..ck], the chat history
    is the one before the call followed by the user message (content: the
    text sent) and by the model message with id [modelMsgId], whose content
    is [c1 ++ ... ++ ck]; nothing else moved or changed.  The two
    [crypto.randomUUID()] values are fresh: [modelMsgId] is the id of no
    other message. *)
Theorem streaming_accumulates r text userId modelMsgId chunks more ok
    course module lesson :
  activeCourse r = Some course ->
  activeModule r = Some module ->
  activeLesson r = Some lesson ->
  Forall (fun msg => Message.id msg <> modelMsgId) (chatHistory (state r)) ->
  userId <> modelMsgId ->
  chatHistory
    (state (run (take (4 + length chunks)%nat
                   (handleSendMessage r text userId modelMsgId (chunks ++ more) ok))
              r))
  = chatHistory (state r)
    ++ [ Message.mk userId Role.user text None;
         Message.mk modelMsgId Role.model (concat chunks) (Some true) ].
Proof.
  intros Hc Hm Hl Hfresh Hne.
  rewrite (send_guard_open r _ _ _ _ _ course module lesson) by assumption.
  rewrite onChunks_app.
  set (start := [_; _; _; _]).
  set (streamed := onChunks modelMsgId [] chunks).
  rewrite <- (app_assoc streamed), (app_assoc start).
  replace (4 + length chunks)%nat with (length (start ++ streamed))
    by (rewrite length_app; unfold streamed; now rewrite onChunks_length).
  rewrite take_app_length, run_app.
  unfold streamed.
  rewrite (onChunks_run modelMsgId chunks [] _
             (chatHistory (state r) ++ [Message.mk userId Role.user text None])
             (Message.mk modelMsgId Role.model [] (Some true))).
  - simpl. now rewrite <- app_assoc.
  - simpl. now rewrite <- app_assoc.
  - apply Forall_app. split.
    + eapply Forall_impl; [exact Hfresh|]. intros msg Hmsg.
      now apply bool_decide_eq_false_2.
    + constructor; [|constructor]. now apply bool_decide_eq_false_2.
  - reflexivity.
  - reflexivity.
Qed.

Lemma streaming_accumulates_witness :
  chatHistory
    (state (run (take 6
                   (handleSendMessage demoWorld (Js.lit "hi") (Js.lit "u-1")
                      (Js.lit "u-2") [Js.lit "Hel"; Js.lit "lo"; Js.lit "!"] true))
              demoWorld))
  = chatHistory (state demoWorld)
    ++ [ Message.mk (Js.lit "u-1") Role.user (Js.lit "hi") None;
         Message.mk (Js.lit "u-2") Role.model (Js.lit "Hello") (Some true) ].
Proof.
  apply (streaming_accumulates demoWorld (Js.lit "hi") (Js.lit "u-1") (Js.lit "u-2")
           [Js.lit "Hel"; Js.lit "lo"] [Js.lit "!"] true
           demoCourse demoModule demoLesson).
  - reflexivity.
  - reflexivity.
  - reflexivity.
  - repeat constructor. vm_compute. discriminate.
  - vm_compute. discriminate.
Defined.

(** ** Errors of the three service calls *)

(** C3, as amended: a failing curriculum or quiz generation raises exactly
    one alert, after one [console.error]; a failing chat stream is written
    to the console only and raises no alert. *)
Theorem failures_reported r :
  (forall uuid,
     Js.trim (topicInput r) <> [] ->
     alerts (handleGenerateCurriculum r uuid None)
     = [ Js.lit "Failed to generate curriculum. Please try again." ]
     /\ List.filter is_console_error (handleGenerateCurriculum r uuid None)
        = [ ConsoleError ])
  /\ (forall m course,
       activeCourse r = Some course ->
       alerts (handleTakeQuiz r m None) = [ Js.lit "Could not generate quiz. Try again." ]
       /\ List.filter is_console_error (handleTakeQuiz r m None) = [ ConsoleError ])
  /\ (forall text userId modelMsgId chunks course module lesson,
       activeCourse r = Some course ->
       activeModule r = Some module ->
       activeLesson r = Some lesson ->
       alerts (handleSendMessage r text userId modelMsgId chunks false) = []
       /\ List.filter is_console_error
            (handleSendMessage r text userId modelMsgId chunks false)
          = [ ConsoleError ]).
Proof.
  split; [|split].
  - intros uuid Hguard. rewrite generate_guard_open by assumption.
    split; reflexivity.
  - intros m course Hc. unfold handleTakeQuiz. rewrite Hc.
    destruct (Js.index (Course.modules course) m); split; reflexivity.
  - intros text userId modelMsgId chunks course module lesson Hc Hm Hl.
    rewrite (send_guard_open r _ _ _ _ _ course module lesson) by assumption.
    split.
    + unfold alerts. rewrite !omap_app. fold (alerts (onChunks modelMsgId [] chunks)).
      rewrite alerts_onChunks. reflexivity.
    + rewrite !List.filter_app, console_onChunks. reflexivity.
Qed.

Lemma failures_reported_witness :
  alerts (handleGenerateCurriculum typed (Js.lit "u-0") None)
  = [ Js.lit "Failed to generate curriculum. Please try again." ]
  /\ alerts (handleTakeQuiz demoWorld 0 None)
     = [ Js.lit "Could not generate quiz. Try again." ]
  /\ alerts (handleSendMessage demoWorld (Js.lit "hi") (Js.lit "u-1") (Js.lit "u-2")
               [Js.lit "par"] false) = [].
Proof.
  split; [|split].
  - apply (proj1 (failures_reported typed)). vm_compute. discriminate.
  - apply (proj1 (proj2 (failures_reported demoWorld)) 0 demoCourse). reflexivity.
  - apply (proj2 (proj2 (failures_reported demoWorld)) (Js.lit "hi") (Js.lit "u-1")
             (Js.lit "u-2") [Js.lit "par"] demoCourse demoModule demoLesson);
      reflexivity.
Defined.

(** C3 as stated fails for the chat: the stream is called, it throws after
    one chunk, the error goes to the console and no alert is raised. *)
Lemma failures_reported_counterexample :
  existsb is_api_call
    (handleSendMessage demoWorld (Js.lit "hi") (Js.lit "u-1") (Js.lit "u-2")
       [Js.lit "par"] false) = true
  /\ existsb is_console_error
       (handleSendMessage demoWorld (Js.lit "hi") (Js.lit "u-1") (Js.lit "u-2")
          [Js.lit "par"] false) = true
  /\ ~ (existsb is_alert
         (handleSendMessage demoWorld (Js.lit "hi") (Js.lit "u-1") (Js.lit "u-2")
            [Js.lit "par"] false) = true).
Proof.
  split; [|split]; [reflexivity | reflexivity |].
  vm_compute. discriminate.
Qed.

(** ** Invariants of runs *)

Lemma run_preserves (P : Component -> Prop) acts :
  Forall (preserves P) acts -> forall w, P w -> P (run acts w).
Proof.
  induction 1 as [|a acts Ha _ IH]; intros w Hw; [exact Hw|].
  rewrite run_cons. apply IH, Ha, Hw.
Qed.

Lemma onChunks_preserves (P : Component -> Prop) modelMsgId :
  (forall c, preserves P (SetState (setContentOf modelMsgId c))) ->
  forall chunks acc, Forall (preserves P) (onChunks modelMsgId acc chunks).
Proof.
  intros H. induction chunks as [|chunk chunks IH]; intros acc; simpl;
    constructor; [apply H | apply IH].
Qed.

(** ** A single stream *)

Lemma forallb_notStreaming_app h msg :
  forallb notStreaming h = true ->
  notStreaming msg = true ->
  forallb notStreaming (h ++ [msg]) = true.
Proof. intros Hh Hmsg. rewrite forallb_app, Hh. simpl. now rewrite Hmsg. Qed.

Lemma greeting_notStreaming uuid course g :
  greeting uuid course = Some g -> notStreaming g = true.
Proof.
  unfold greeting.
  destruct (Js.index (Course.modules course) 0) as [m0|]; [|discriminate].
  destruct (Js.index (Mod.lessons m0) 0) as [l0|]; [|discriminate].
  now intros [= <-].
Qed.

Lemma quiescent_other_handlers r e :
  (forall text userId modelMsgId chunks ok,
     e <> SendMessage text userId modelMsgId chunks ok) ->
  Forall (preserves quiescent) (handler r e).
Proof.
  intros He. destruct e; simpl;
    try (exfalso; eapply He; reflexivity);
    unfold handleGenerateCurriculum, handleSelectLesson, handleTakeQuiz,
      curriculumCatch, quizCatch, onHomeClick, onClose, onChange;
    split_handler; each_action;
    try assumption;
    match goal with H : quiescent _ |- _ => destruct H as [Hflag Hmsgs] end;
    split; simpl; try assumption; try reflexivity.
  - rewrite andb_true_r. eapply greeting_notStreaming; eassumption.
  - now apply forallb_notStreaming_app.
Qed.

Lemma markedOnly_setContentOf modelMsgId c :
  preserves (markedOnly modelMsgId) (SetState (setContentOf modelMsgId c)).
Proof.
  intros w. unfold markedOnly. simpl.
  induction (chatHistory (state w)) as [|msg h IH]; simpl; [easy|].
  intros [Hmsg Hh]%andb_true_iff. rewrite (IH Hh), andb_true_r.
  destruct (bool_decide (Message.id msg = modelMsgId)) eqn:E.
  - simpl. rewrite E. apply orb_true_r.
  - rewrite E. exact Hmsg.
Qed.

Lemma stopStreamingOf_clears modelMsgId w :
  markedOnly modelMsgId w ->
  forallb notStreaming (chatHistory (stopStreamingOf modelMsgId (state w))) = true.
Proof.
  unfold markedOnly. simpl.
  induction (chatHistory (state w)) as [|msg h IH]; simpl; [easy|].
  intros [Hmsg Hh]%andb_true_iff. rewrite (IH Hh), andb_true_r.
  destruct (bool_decide (Message.id msg = modelMsgId)) eqn:E; [reflexivity|].
  now rewrite orb_false_r in Hmsg.
Qed.

Lemma quiescent_markedOnly modelMsgId w : quiescent w -> markedOnly modelMsgId w.
Proof.
  intros [_ H]. unfold markedOnly.
  rewrite forallb_forall in *. intros msg Hin. now rewrite (H msg Hin).
Qed.

Lemma markedOnly_append modelMsgId msg :
  notStreaming msg || bool_decide (Message.id msg = modelMsgId) = true ->
  preserves (markedOnly modelMsgId) (SetState (appendMessage msg)).
Proof.
  intros Hmsg w. unfold markedOnly. simpl. intros Hw.
  rewrite forallb_app, Hw. simpl. now rewrite Hmsg.
Qed.

(** Up to the [finally] block the only marked message is the new one. *)
Lemma send_body_markedOnly text userId modelMsgId history prompt chunks
    (ok : bool) :
  Forall (preserves (markedOnly modelMsgId))
    ([ SetState (appendMessage (Message.mk userId Role.user text None));
       SetIsStreaming true;
       SetState (appendMessage (Message.mk modelMsgId Role.model [] (Some true)));
       CallStreamChatResponse history prompt ]
     ++ onChunks modelMsgId [] chunks
     ++ (if ok then [] else [ ConsoleError ])).
Proof.
  repeat apply Forall_app_2.
  - each_action; try assumption.
    + now apply (markedOnly_append modelMsgId).
    + apply (markedOnly_append modelMsgId); [|assumption].
      simpl. now rewrite bool_decide_eq_true_2.
  - apply onChunks_preserves. intros c. apply markedOnly_setContentOf.
  - destruct ok; each_action; assumption.
Qed.

Lemma send_quiescent w text userId modelMsgId chunks ok :
  quiescent w ->
  quiescent (run (handleSendMessage w text userId modelMsgId chunks ok) w).
Proof.
  intros Hq.
  destruct (activeCourse w) as [course|] eqn:Hc;
    [|now rewrite send_guard_closed by auto].
  destruct (activeModule w) as [module|] eqn:Hm;
    [|now rewrite send_guard_closed by auto].
  destruct (activeLesson w) as [lesson|] eqn:Hl;
    [|now rewrite send_guard_closed by auto].
  rewrite (send_guard_open w _ _ _ _ _ course module lesson) by assumption.
  rewrite !app_assoc, run_app, <- !app_assoc.
  set (body := _ ++ _ ++ _).
  pose proof (run_preserves _ body
                (send_body_markedOnly text userId modelMsgId _ _ chunks ok)
                w (quiescent_markedOnly modelMsgId w Hq)) as Hbody.
  split; [reflexivity|].
  exact (stopStreamingOf_clears modelMsgId _ Hbody).
Qed.

Lemma dispatch_quiescent w e : quiescent w -> quiescent (dispatch w e).
Proof.
  intros Hq. unfold dispatch.
  destruct e;
    try (apply run_preserves; [apply quiescent_other_handlers; discriminate | exact Hq]).
  apply send_quiescent, Hq.
Qed.

Lemma reachable_quiescent w : reachable w -> quiescent w.
Proof.
  induction 1 as [|w e _ IH]; [split; reflexivity | now apply dispatch_quiescent].
Qed.






(** ** The view *)

Lemma handler_keeps_view r e : Forall (preserves viewOk) (handler r e).
Proof.
  destruct e; simpl;
    unfold handleGenerateCurriculum, handleSelectLesson, handleSendMessage,
      handleTakeQuiz, curriculumCatch, quizCatch, onHomeClick, onClose, onChange;
    split_handler;
    repeat apply Forall_app_2;
    try (apply onChunks_preserves; intros c w Hw; exact Hw);
    each_action; try assumption;
    first [ now left | now right ].
Qed.

Lemma step_viewInvariant c c' : step c c' -> viewInvariant c -> viewInvariant c'.
Proof.
  intros Hstep [Hview Hpending]. destruct Hstep as [c e | c before a rest after E | c before after E].
  - split; [exact Hview|]. constructor; [apply handler_keeps_view | exact Hpending].
  - rewrite E in Hpending. apply Forall_app in Hpending as [Hbefore Hafter].
    apply Forall_cons in Hafter as [Htask Hafter].
    apply Forall_cons in Htask as [Ha Hrest].
    split; simpl.
    + apply Ha, Hview.
    + apply Forall_app_2; [exact Hbefore|]. now constructor.
  - rewrite E in Hpending. apply Forall_app in Hpending as [Hbefore Hafter].
    apply Forall_cons in Hafter as [_ Hafter].
    split; simpl; [exact Hview|]. now apply Forall_app_2.
Qed.

Lemma advance_all acts : forall w p,
  rtc step (mkConfig w (acts :: p)) (mkConfig (run acts w) p).
Proof.
  induction acts as [|a acts IH]; intros w p.
  - apply rtc_once. exact (step_finish (mkConfig w ([] :: p)) [] p eq_refl).
  - eapply rtc_l; [|apply IH].
    exact (step_advance (mkConfig w ((a :: acts) :: p)) [] a acts p eq_refl).
Qed.

(** Handlers run one at a time are a special case of overlapping ones. *)
Lemma reachable_overlapping w :
  reachable w -> rtc step initialConfig (mkConfig w []).
Proof.
  induction 1 as [|w e _ IH]; [apply rtc_refl|].
  etrans; [exact IH|].
  eapply rtc_l; [exact (step_fire (mkConfig w []) e)|].
  apply advance_all.
Qed.

(** C9: in every state the handlers can reach from the initial one, also
    when they overlap, [currentView] is ['landing'] or ['course'] and never
    ['quiz']; the quiz shows through [activeQuiz] alone, which is what the
    modal is rendered from. *)
Theorem view_never_quiz c :
  rtc step initialConfig c ->
  currentView (state (component c)) <> ViewState.quiz
  /\ (currentView (state (component c)) = ViewState.landing
      \/ currentView (state (component c)) = ViewState.course)
  /\ quizModal (render (component c)) = activeQuiz (state (component c)).
Proof.
  intros Hreach.
  assert (Hinv : viewInvariant c).
  { refine (rtc_ind_r viewInvariant initialConfig _ _ c Hreach).
    - split; [now left | constructor].
    - intros y z _ Hstep Hy. exact (step_viewInvariant y z Hstep Hy). }
  destruct Hinv as [Hview _].
  split; [|split; [exact Hview | reflexivity]].
  destruct Hview as [-> | ->]; discriminate.
Qed.

Lemma view_never_quiz_witness :
  currentView (state demoWorld) <> ViewState.quiz
  /\ (currentView (state demoWorld) = ViewState.landing
      \/ currentView (state demoWorld) = ViewState.course)
  /\ quizModal (render demoWorld) = activeQuiz (state demoWorld).
Proof.
  apply (view_never_quiz (mkConfig demoWorld [])).
  apply reachable_overlapping.
  exact demoWorld_reachable.
Defined.

(** ** Overlapping streams *)




(** * Further properties of the handlers *)

(** ** What the derived values depend on *)

Lemma activeCourse_ext w w' :
  courses (state w') = courses (state w) ->
  activeCourseId (state w') = activeCourseId (state w) ->
  activeCourse w' = activeCourse w.
Proof. unfold activeCourse. now intros -> ->. Qed.

Lemma activeCourse_id r c :
  activeCourse r = Some c -> activeCourseId (state r) = Some (Course.id c).
Proof.
  unfold activeCourse. intros H. apply find_some in H as [_ H].
  now apply bool_decide_eq_true_1 in H.
Qed.

Lemma activeLesson_inv r lesson :
  activeLesson r = Some lesson ->
  exists course module,
    activeCourse r = Some course /\ activeModule r = Some module.
Proof.
  unfold activeLesson, activeModule.
  destruct (activeCourse r) as [course|]; [|discriminate].
  destruct (activeModuleIndex (state r)) as [i|]; [|discriminate].
  destruct (Js.index (Course.modules course) i) as [module|]; [|discriminate].
  eauto.
Qed.

(** X20: the three tests of the guard of [handleSendMessage] come down to
    the last one: the handler does nothing exactly when there is no active
    lesson. *)
Theorem send_guard_is_active_lesson r text userId modelMsgId chunks ok :
  handleSendMessage r text userId modelMsgId chunks ok = []
  <-> activeLesson r = None.
Proof.
  split.
  - destruct (activeLesson r) as [lesson|] eqn:Hl; [|reflexivity].
    destruct (activeLesson_inv r lesson Hl) as (course & module & Hc & Hm).
    rewrite (send_guard_open r _ _ _ _ _ course module lesson) by assumption.
    discriminate.
  - intros H. apply send_guard_closed. auto.
Qed.

(** ** handleGenerateCurriculum on a course without a first lesson *)

Lemma greeting_none_iff uuid course :
  greeting uuid course = None
  <-> (Course.modules course = []
       \/ exists m0 ms, Course.modules course = m0 :: ms /\ Mod.lessons m0 = []).
Proof.
  unfold greeting. destruct (Course.modules course) as [|m0 ms].
  - split; [now left | reflexivity].
  - rewrite index_0_cons. destruct (Mod.lessons m0) as [|l0 ls] eqn:E.
    + split; [right; now exists m0, ms | reflexivity].
    + rewrite index_0_cons.
      split; [discriminate | intros [H | (? & ? & [= <- <-] & H)]; congruence].
Qed.

(** X1: when the service returns a course that has no module, or whose
    first module has no lesson, the course is appended and made active all
    the same, on the course page at position (0, 0), with an empty chat
    history and [isLoading] false, and the failure alert is raised. *)
Theorem generate_incomplete_course r uuid course :
  Js.trim (topicInput r) <> [] ->
  (Course.modules course = []
   \/ exists m0 ms, Course.modules course = m0 :: ms /\ Mod.lessons m0 = []) ->
  run (handleGenerateCurriculum r uuid (Some course)) r
  = mkComponent
      (mkAppState ViewState.course (courses (state r) ++ [course])
         (Some (Course.id course)) (Some 0) (Some 0) []
         (activeQuiz (state r)) false)
      (topicInput r) (isStreaming r)
  /\ alerts (handleGenerateCurriculum r uuid (Some course))
     = [ Js.lit "Failed to generate curriculum. Please try again." ].
Proof.
  intros Hguard Hcourse. apply (greeting_none_iff uuid) in Hcourse.
  rewrite generate_guard_open by assumption. rewrite Hcourse.
  split; reflexivity.
Qed.

Lemma generate_incomplete_course_witness :
  chatHistory
    (state (run (handleGenerateCurriculum typed (Js.lit "u-0") (Some hollowCourse))
              typed)) = []
  /\ alerts (handleGenerateCurriculum typed (Js.lit "u-0") (Some hollowCourse))
     = [ Js.lit "Failed to generate curriculum. Please try again." ].
Proof.
  destruct (generate_incomplete_course typed (Js.lit "u-0") hollowCourse) as [E A].
  - vm_compute. discriminate.
  - right. exists (Mod.mk (Js.lit "Pixels") []), []. split; reflexivity.
  - rewrite E. split; [reflexivity | exact A].
Defined.

(** ** Which course becomes active *)

Lemma find_app_fresh {A} (p : A -> bool) (l : list A) (x : A) :
  Forall (fun y => p y = false) l -> p x = true ->
  List.find p (l ++ [x]) = Some x.
Proof.
  intros Hl Hx. induction Hl as [|y l Hy _ IH]; simpl.
  - now rewrite Hx.
  - now rewrite Hy.
Qed.

Lemma find_app_found {A} (p : A -> bool) (l l' : list A) (x : A) :
  List.find p l = Some x -> List.find p (l ++ l') = Some x.
Proof.
  induction l as [|y l IH]; simpl; [discriminate|].
  destruct (p y); [easy | exact IH].
Qed.

Lemma find_pointwise {A} (p q : A -> bool) (l : list A) :
  (forall x, p x = q x) -> List.find p l = List.find q l.
Proof.
  intros H. induction l as [|y l IH]; simpl; [reflexivity|].
  now rewrite H, IH.
Qed.

Lemma generate_success_run r uuid course :
  Js.trim (topicInput r) <> [] ->
  courses (state (run (handleGenerateCurriculum r uuid (Some course)) r))
  = courses (state r) ++ [course]
  /\ activeCourseId (state (run (handleGenerateCurriculum r uuid (Some course)) r))
     = Some (Course.id course)
  /\ activeModuleIndex (state (run (handleGenerateCurriculum r uuid (Some course)) r))
     = Some 0
  /\ activeLessonIndex (state (run (handleGenerateCurriculum r uuid (Some course)) r))
     = Some 0.
Proof.
  intros Hguard. rewrite generate_guard_open by assumption.
  destruct (greeting uuid course); repeat split.
Qed.

(** X2: after a successful generation whose course id is carried by no
    earlier course, the active course, module and lesson are the new
    course, its first module and its first lesson. *)
Theorem generate_activates_new_course r uuid course m0 l0 :
  Js.trim (topicInput r) <> [] ->
  Js.index (Course.modules course) 0 = Some m0 ->
  Js.index (Mod.lessons m0) 0 = Some l0 ->
  Forall (fun c => Course.id c <> Course.id course) (courses (state r)) ->
  activeCourse (run (handleGenerateCurriculum r uuid (Some course)) r) = Some course
  /\ activeModule (run (handleGenerateCurriculum r uuid (Some course)) r) = Some m0
  /\ activeLesson (run (handleGenerateCurriculum r uuid (Some course)) r) = Some l0.
Proof.
  intros Hguard Hm Hl Hfresh.
  destruct (generate_success_run r uuid course Hguard) as (Hcs & Hid & Hmi & Hli).
  assert (Hc : activeCourse (run (handleGenerateCurriculum r uuid (Some course)) r)
               = Some course).
  { unfold activeCourse. rewrite Hcs, Hid. apply find_app_fresh.
    - eapply Forall_impl; [exact Hfresh|]. intros c Hc.
      apply bool_decide_eq_false_2. congruence.
    - now apply bool_decide_eq_true_2. }
  assert (Hmod : activeModule (run (handleGenerateCurriculum r uuid (Some course)) r)
                 = Some m0).
  { unfold activeModule. now rewrite Hc, Hmi. }
  split; [exact Hc | split; [exact Hmod|]].
  unfold activeLesson. now rewrite Hmod, Hli.
Qed.

Lemma generate_activates_new_course_witness :
  activeCourse (run (handleGenerateCurriculum typed (Js.lit "u-0") (Some demoCourse))
                  typed) = Some demoCourse
  /\ activeModule (run (handleGenerateCurriculum typed (Js.lit "u-0") (Some demoCourse))
                     typed) = Some demoModule
  /\ activeLesson (run (handleGenerateCurriculum typed (Js.lit "u-0") (Some demoCourse))
                     typed) = Some demoLesson.
Proof.
  apply (generate_activates_new_course typed (Js.lit "u-0") demoCourse demoModule
           demoLesson).
  - vm_compute. discriminate.
  - reflexivity.
  - reflexivity.
  - constructor.
Defined.

(** X3: [find] stops at the first match: when an earlier course already
    carries the id of the course the service returns, that earlier course
    stays the active one after the generation. *)
Theorem generate_duplicate_id_keeps_old r uuid course old :
  Js.trim (topicInput r) <> [] ->
  List.find (fun c => bool_decide (Course.id c = Course.id course))
    (courses (state r)) = Some old ->
  activeCourse (run (handleGenerateCurriculum r uuid (Some course)) r) = Some old.
Proof.
  intros Hguard Hold.
  destruct (generate_success_run r uuid course Hguard) as (Hcs & Hid & _).
  unfold activeCourse. rewrite Hcs, Hid. apply find_app_found.
  rewrite <- Hold. apply find_pointwise. intros c.
  apply bool_decide_ext. split; congruence.
Qed.

Lemma generate_duplicate_id_keeps_old_witness :
  activeCourse (run (handleGenerateCurriculum demoWorld (Js.lit "u-9") (Some twinCourse))
                  demoWorld) = Some demoCourse.
Proof.
  apply (generate_duplicate_id_keeps_old demoWorld (Js.lit "u-9") twinCourse demoCourse).
  - vm_compute. discriminate.
  - reflexivity.
Defined.

(** ** handleSelectLesson at and beyond the bounds *)

(** X4: without an active course the handler does nothing; with one, a
    module index outside the course (negative included) makes it throw,
    uncaught, before any update.  In both cases the component is left as
    it was and no alert is raised. *)
Theorem select_lesson_rejected r m l uuid :
  (activeCourse r = None -> handleSelectLesson r m l uuid = [])
  /\ (forall course,
       activeCourse r = Some course ->
       m < 0 \/ Z.of_nat (length (Course.modules course)) <= m ->
       handleSelectLesson r m l uuid = [ Uncaught ])
  /\ (activeCourse r = None
      \/ (exists course,
            activeCourse r = Some course
            /\ (m < 0 \/ Z.of_nat (length (Course.modules course)) <= m)) ->
      run (handleSelectLesson r m l uuid) r = r
      /\ alerts (handleSelectLesson r m l uuid) = []).
Proof.
  assert (Hnone : activeCourse r = None -> handleSelectLesson r m l uuid = []).
  { unfold handleSelectLesson. now intros ->. }
  assert (Hout : forall course,
             activeCourse r = Some course ->
             m < 0 \/ Z.of_nat (length (Course.modules course)) <= m ->
             handleSelectLesson r m l uuid = [ Uncaught ]).
  { intros course Hc Hm. unfold handleSelectLesson. rewrite Hc.
    assert (E : Js.index (Course.modules course) m = None).
    { unfold Js.index. destruct (decide (0 <= m)) as [Hpos|]; [|reflexivity].
      apply lookup_ge_None. lia. }
    now rewrite E. }
  split; [exact Hnone | split; [exact Hout|]].
  intros [H | (course & Hc & Hm)].
  - rewrite (Hnone H). now split.
  - rewrite (Hout course Hc Hm). now split.
Qed.

Lemma select_lesson_rejected_witness :
  handleSelectLesson initial 0 0 (Js.lit "u-3") = []
  /\ handleSelectLesson demoWorld 1 0 (Js.lit "u-3") = [ Uncaught ]
  /\ run (handleSelectLesson demoWorld 1 0 (Js.lit "u-3")) demoWorld = demoWorld
  /\ alerts (handleSelectLesson demoWorld 1 0 (Js.lit "u-3")) = [].
Proof.
  split; [|split].
  - apply (proj1 (select_lesson_rejected initial 0 0 (Js.lit "u-3"))). reflexivity.
  - apply (proj1 (proj2 (select_lesson_rejected demoWorld 1 0 (Js.lit "u-3")))
             demoCourse); [reflexivity | right; simpl; lia].
  - apply (proj2 (proj2 (select_lesson_rejected demoWorld 1 0 (Js.lit "u-3")))).
    right. exists demoCourse. split; [reflexivity|]. right. simpl. lia.
Defined.

(** X5: a lesson index outside an existing module still moves the
    position: both indices are set, no message is appended, and from then
    on there is no active lesson, so that [handleSendMessage] does
    nothing. *)
Theorem select_missing_lesson r m l uuid course module :
  activeCourse r = Some course ->
  Js.index (Course.modules course) m = Some module ->
  Js.index (Mod.lessons module) l = None ->
  run (handleSelectLesson r m l uuid) r
  = mkComponent
      (mkAppState (currentView (state r)) (courses (state r))
         (activeCourseId (state r)) (Some m) (Some l) (chatHistory (state r))
         (activeQuiz (state r)) (isLoading (state r)))
      (topicInput r) (isStreaming r)
  /\ activeLesson (run (handleSelectLesson r m l uuid) r) = None
  /\ forall text userId modelMsgId chunks ok,
       handleSendMessage (run (handleSelectLesson r m l uuid) r)
         text userId modelMsgId chunks ok = [].
Proof.
  intros Hc Hm Hl.
  assert (E : run (handleSelectLesson r m l uuid) r
              = mkComponent
                  (mkAppState (currentView (state r)) (courses (state r))
                     (activeCourseId (state r)) (Some m) (Some l)
                     (chatHistory (state r)) (activeQuiz (state r))
                     (isLoading (state r)))
                  (topicInput r) (isStreaming r)).
  { unfold handleSelectLesson. now rewrite Hc, Hm, Hl. }
  assert (Hnone : activeLesson (run (handleSelectLesson r m l uuid) r) = None).
  { rewrite E. unfold activeLesson, activeModule, activeCourse in *.
    cbn [state courses activeCourseId activeModuleIndex activeLessonIndex].
    now rewrite Hc, Hm, Hl. }
  split; [exact E | split; [exact Hnone|]].
  intros. apply send_guard_closed. auto.
Qed.

Lemma select_missing_lesson_witness :
  activeLesson (run (handleSelectLesson demoWorld 0 4 (Js.lit "u-3")) demoWorld) = None
  /\ activeLessonIndex
       (state (run (handleSelectLesson demoWorld 0 4 (Js.lit "u-3")) demoWorld))
     = Some 4.
Proof.
  destruct (select_missing_lesson demoWorld 0 4 (Js.lit "u-3") demoCourse demoModule)
    as (E & Hnone & _); try reflexivity.
  split; [exact Hnone | now rewrite E].
Defined.

(** X6: after the selection of an existing lesson, that lesson and its
    module are the active ones. *)
Theorem select_lesson_activates r m l uuid course module lesson :
  activeCourse r = Some course ->
  Js.index (Course.modules course) m = Some module ->
  Js.index (Mod.lessons module) l = Some lesson ->
  activeCourse (run (handleSelectLesson r m l uuid) r) = Some course
  /\ activeModule (run (handleSelectLesson r m l uuid) r) = Some module
  /\ activeLesson (run (handleSelectLesson r m l uuid) r) = Some lesson.
Proof.
  intros Hc Hm Hl.
  assert (E : run (handleSelectLesson r m l uuid) r
              = mkComponent
                  (set_activeIndices m l
                     (appendMessage (contextMsg uuid module lesson) (state r)))
                  (topicInput r) (isStreaming r)).
  { unfold handleSelectLesson. now rewrite Hc, Hm, Hl. }
  rewrite E. unfold activeLesson, activeModule, activeCourse in *.
  cbn [state courses activeCourseId activeModuleIndex activeLessonIndex
       set_activeIndices appendMessage set_chatHistory].
  now rewrite Hc, Hm, Hl.
Qed.

Lemma select_lesson_activates_witness :
  activeCourse (run (handleSelectLesson demoWorld 0 0 (Js.lit "u-3")) demoWorld)
  = Some demoCourse
  /\ activeModule (run (handleSelectLesson demoWorld 0 0 (Js.lit "u-3")) demoWorld)
     = Some demoModule
  /\ activeLesson (run (handleSelectLesson demoWorld 0 0 (Js.lit "u-3")) demoWorld)
     = Some demoLesson.
Proof.
  apply (select_lesson_activates demoWorld 0 0 (Js.lit "u-3") demoCourse demoModule
           demoLesson); reflexivity.
Defined.

(** ** handleSendMessage from start to end *)

Lemma map_untouched {A} (f : A -> A) (p : A -> bool) (l : list A) :
  Forall (fun y => p y = false) l ->
  List.map (fun y => if p y then f y else y) l = l.
Proof.
  induction 1 as [|y l Hy _ IH]; simpl; [reflexivity|]. now rewrite Hy, IH.
Qed.

Lemma fresh_bool_decide modelMsgId (h : list Message.t) :
  Forall (fun msg => Message.id msg <> modelMsgId) h ->
  Forall (fun y => bool_decide (Message.id y = modelMsgId) = false) h.
Proof.
  intros H. eapply Forall_impl; [exact H|]. intros msg Hmsg.
  now apply bool_decide_eq_false_2.
Qed.

(** X7: a whole run of [handleSendMessage] past its guard, with a fresh
    [modelMsgId], changes the component in two places only: the chat
    history gains the user message and the model message, the latter with
    all the chunks received and [isStreaming] false, and the [isStreaming]
    cell is false.  This holds whether the stream resolved or threw: after
    a failure the chunks received so far stay in the history. *)
Theorem send_completes r text userId modelMsgId chunks ok course module lesson :
  activeCourse r = Some course ->
  activeModule r = Some module ->
  activeLesson r = Some lesson ->
  Forall (fun msg => Message.id msg <> modelMsgId) (chatHistory (state r)) ->
  userId <> modelMsgId ->
  run (handleSendMessage r text userId modelMsgId chunks ok) r
  = mkComponent
      (mkAppState (currentView (state r)) (courses (state r))
         (activeCourseId (state r)) (activeModuleIndex (state r))
         (activeLessonIndex (state r))
         (chatHistory (state r)
          ++ [ Message.mk userId Role.user text None;
               Message.mk modelMsgId Role.model (concat chunks) (Some false) ])
         (activeQuiz (state r)) (isLoading (state r)))
      (topicInput r) false.
Proof.
  intros Hc Hm Hl Hfresh Hne.
  rewrite (send_guard_open r _ _ _ _ _ course module lesson) by assumption.
  set (start := [_; _; _; _]).
  rewrite (app_assoc start), run_app, run_app, run_app.
  unfold start.
  assert (Hh : Forall (fun y => bool_decide (Message.id y = modelMsgId) = false)
                 (chatHistory (state r) ++ [Message.mk userId Role.user text None])).
  { apply Forall_app. split; [now apply fresh_bool_decide|].
    constructor; [|constructor]. now apply bool_decide_eq_false_2. }
  rewrite (onChunks_run modelMsgId chunks [] _
             (chatHistory (state r) ++ [Message.mk userId Role.user text None])
             (Message.mk modelMsgId Role.model [] (Some true)));
    [ | simpl; now rewrite <- app_assoc | exact Hh | reflexivity | reflexivity ].
  replace (run (if ok then [] else [ConsoleError]) _) with
    (mkComponent
       (set_chatHistory
          ((chatHistory (state r) ++ [Message.mk userId Role.user text None])
           ++ [Message.withContent (Message.mk modelMsgId Role.model [] (Some true))
                 ([] ++ concat chunks)])
          (state (run [SetState (appendMessage (Message.mk userId Role.user text None));
                       SetIsStreaming true;
                       SetState (appendMessage
                                   (Message.mk modelMsgId Role.model [] (Some true)));
                       CallStreamChatResponse (List.map toApi (chatHistory (state r)))
                         (contextAwarePrompt course module lesson text)] r)))
       (topicInput r) true)
    by (now destruct ok).
  cbn [run fold_left perform state topicInput isStreaming].
  unfold stopStreamingOf. cbn [chatHistory set_chatHistory].
  rewrite (map_only_last (fun y => Message.withIsStreaming y false)
             (fun y => bool_decide (Message.id y = modelMsgId)) _ _ Hh).
  cbn. rewrite bool_decide_eq_true_2 by reflexivity.
  now rewrite <- app_assoc.
Qed.

Lemma send_completes_witness :
  chatHistory
    (state (run (handleSendMessage demoWorld (Js.lit "hi") (Js.lit "u-1")
                   (Js.lit "u-2") [Js.lit "Hel"; Js.lit "lo"] false) demoWorld))
  = chatHistory (state demoWorld)
    ++ [ Message.mk (Js.lit "u-1") Role.user (Js.lit "hi") None;
         Message.mk (Js.lit "u-2") Role.model (Js.lit "Hello") (Some false) ].
Proof.
  rewrite (send_completes demoWorld (Js.lit "hi") (Js.lit "u-1") (Js.lit "u-2")
             [Js.lit "Hel"; Js.lit "lo"] false demoCourse demoModule demoLesson).
  - reflexivity.
  - reflexivity.
  - reflexivity.
  - reflexivity.
  - repeat constructor. vm_compute. discriminate.
  - vm_compute. discriminate.
Defined.

Lemma perform_setContentOf_untouched modelMsgId c w :
  Forall (fun msg => Message.id msg <> modelMsgId) (chatHistory (state w)) ->
  perform w (SetState (setContentOf modelMsgId c)) = w.
Proof.
  intros H. apply fresh_bool_decide in H. simpl. unfold setContentOf.
  rewrite (map_untouched _ _ _ H), set_chatHistory_same. now destruct w.
Qed.

Lemma onChunks_untouched modelMsgId chunks : forall acc w,
  Forall (fun msg => Message.id msg <> modelMsgId) (chatHistory (state w)) ->
  run (onChunks modelMsgId acc chunks) w = w.
Proof.
  induction chunks as [|chunk chunks IH]; intros acc w H; [reflexivity|].
  simpl onChunks. rewrite run_cons, perform_setContentOf_untouched by exact H.
  now apply IH.
Qed.

(** X8: the rest of [handleSendMessage] after the call of the stream, run
    on a chat history in which no message carries [modelMsgId] (the history
    was replaced meanwhile, as a new course does), drops every chunk: the
    state is untouched and only [isStreaming] is set to false. *)
Theorem stream_without_target r text userId modelMsgId chunks ok
    course module lesson w :
  activeCourse r = Some course ->
  activeModule r = Some module ->
  activeLesson r = Some lesson ->
  Forall (fun msg => Message.id msg <> modelMsgId) (chatHistory (state w)) ->
  run (drop 4 (handleSendMessage r text userId modelMsgId chunks ok)) w
  = mkComponent (state w) (topicInput w) false.
Proof.
  intros Hc Hm Hl Hw.
  rewrite (send_guard_open r _ _ _ _ _ course module lesson) by assumption.
  set (rest := onChunks _ _ _ ++ _). cbn [drop app]. rewrite drop_0. unfold rest.
  rewrite run_app, run_app, onChunks_untouched by exact Hw.
  replace (run (if ok then [] else [ConsoleError]) w) with w by (now destruct ok).
  apply fresh_bool_decide in Hw.
  cbn. unfold stopStreamingOf. cbn.
  now rewrite (map_untouched _ _ _ Hw), set_chatHistory_same.
Qed.

Lemma stream_without_target_witness :
  run (drop 4 (handleSendMessage demoWorld (Js.lit "hi") (Js.lit "u-1") (Js.lit "u-2")
                 [Js.lit "Hel"; Js.lit "lo"] true)) demoWorld
  = mkComponent (state demoWorld) (topicInput demoWorld) false.
Proof.
  apply (stream_without_target demoWorld (Js.lit "hi") (Js.lit "u-1") (Js.lit "u-2")
           [Js.lit "Hel"; Js.lit "lo"] true demoCourse demoModule demoLesson demoWorld).
  - reflexivity.
  - reflexivity.
  - reflexivity.
  - repeat constructor. vm_compute. discriminate.
Defined.

Lemma onChunks_keeps_length modelMsgId chunks : forall acc w,
  length (chatHistory (state (run (onChunks modelMsgId acc chunks) w)))
  = length (chatHistory (state w)).
Proof.
  induction chunks as [|chunk chunks IH]; intros acc w; [reflexivity|].
  simpl onChunks. rewrite run_cons, IH. simpl. apply length_map.
Qed.

(** X9: whatever the two ids are, a run of [handleSendMessage] past its
    guard makes the chat history exactly two messages longer, and every
    earlier message whose id is not [modelMsgId] is found unchanged at its
    position afterwards. *)
Theorem send_keeps_earlier_messages r text userId modelMsgId chunks ok
    course module lesson :
  activeCourse r = Some course ->
  activeModule r = Some module ->
  activeLesson r = Some lesson ->
  length (chatHistory
            (state (run (handleSendMessage r text userId modelMsgId chunks ok) r)))
  = (length (chatHistory (state r)) + 2)%nat
  /\ forall (i : nat) msg,
       chatHistory (state r) !! i = Some msg ->
       Message.id msg <> modelMsgId ->
       chatHistory
         (state (run (handleSendMessage r text userId modelMsgId chunks ok) r)) !! i
       = Some msg.
Proof.
  intros Hc Hm Hl.
  rewrite (send_guard_open r _ _ _ _ _ course module lesson) by assumption.
  set (start := [_; _; _; _]).
  rewrite run_app, run_app, run_app.
  set (w1 := run start r).
  assert (Hw1 : chatHistory (state w1)
                = (chatHistory (state r) ++ [Message.mk userId Role.user text None])
                  ++ [Message.mk modelMsgId Role.model [] (Some true)])
    by reflexivity.
  set (w2 := run (onChunks modelMsgId [] chunks) w1).
  replace (run (if ok then [] else [ConsoleError]) w2) with w2 by (now destruct ok).
  cbn [run fold_left perform state]. unfold stopStreamingOf.
  cbn [chatHistory set_chatHistory]. split.
  - rewrite length_map. unfold w2.
    rewrite onChunks_keeps_length, Hw1, !length_app. simpl. lia.
  - intros i msg Hi Hid.
    apply (map_keeps_others _ (fun y => bool_decide (Message.id y = modelMsgId)));
      [|now apply bool_decide_eq_false_2].
    apply onChunks_keeps_others; [|exact Hid].
    rewrite Hw1, <- app_assoc. now apply lookup_app_l_Some.
Qed.

Lemma send_keeps_earlier_messages_witness :
  length (chatHistory
            (state (run (handleSendMessage demoWorld (Js.lit "hi") (Js.lit "u-0")
                           (Js.lit "u-0") [Js.lit "ok"] true) demoWorld)))
  = 3%nat.
Proof.
  rewrite (proj1 (send_keeps_earlier_messages demoWorld (Js.lit "hi") (Js.lit "u-0")
                    (Js.lit "u-0") [Js.lit "ok"] true demoCourse demoModule demoLesson
                    eq_refl eq_refl eq_refl)).
  reflexivity.
Defined.

(** ** Calls of the service *)

Lemma filter_onChunks modelMsgId chunks : forall acc,
  List.filter is_api_call (onChunks modelMsgId acc chunks) = [].
Proof. induction chunks as [|chunk chunks IH]; intros acc; simpl; auto. Qed.

(** X10: no handler calls the service more than once in a run, whatever
    the snapshot and whatever the service answers. *)
Theorem one_call_per_handler r e :
  (length (List.filter is_api_call (handler r e)) <= 1)%nat.
Proof.
  destruct e; simpl;
    unfold handleGenerateCurriculum, handleSelectLesson, handleSendMessage,
      handleTakeQuiz, curriculumCatch, quizCatch, onHomeClick, onClose, onChange;
    split_handler;
    rewrite ?List.filter_app, ?filter_onChunks; simpl; lia.
Qed.


(** ** The quiz *)

(** X12: taking a quiz and closing it is a round trip: from a component
    with no quiz open and nothing loading, a successful [handleTakeQuiz]
    followed by [onClose] gives back the component it started from. *)
Theorem quiz_open_close r m course module quiz :
  activeCourse r = Some course ->
  Js.index (Course.modules course) m = Some module ->
  activeQuiz (state r) = None ->
  isLoading (state r) = false ->
  dispatch (dispatch r (TakeQuiz m (Some quiz))) CloseQuiz = r.
Proof.
  intros Hc Hm Hq Hload. unfold dispatch at 2. simpl handler.
  unfold handleTakeQuiz. rewrite Hc, Hm.
  destruct r as [[view cs id mi li h q loading] topic streaming].
  simpl in Hq, Hload. subst q loading. reflexivity.
Qed.

Lemma quiz_open_close_witness :
  dispatch (dispatch demoWorld (TakeQuiz 0 (Some demoQuiz))) CloseQuiz = demoWorld.
Proof.
  apply (quiz_open_close demoWorld 0 demoCourse demoModule demoQuiz); reflexivity.
Defined.

(** ** Invariants of overlapping handlers *)

(** A property every action of every handler keeps holds in all the
    configurations overlapping handlers reach. *)
Lemma overlapping_invariant (P : Component -> Prop) :
  P initial ->
  (forall r e, Forall (preserves P) (handler r e)) ->
  forall c, rtc step initialConfig c -> P (component c).
Proof.
  intros Hinit Hkeep c Hreach.
  enough (H : P (component c) /\ Forall (Forall (preserves P)) (pending c))
    by exact (proj1 H).
  refine (rtc_ind_r
            (fun c => P (component c) /\ Forall (Forall (preserves P)) (pending c))
            initialConfig _ _ c Hreach).
  - split; [exact Hinit | constructor].
  - intros y z _ Hstep [Hy Hpending].
    destruct Hstep as [y e | y before a rest after E | y before after E]; simpl.
    + split; [exact Hy|]. constructor; [apply Hkeep | exact Hpending].
    + rewrite E in Hpending. apply Forall_app in Hpending as [Hbefore Hafter].
      apply Forall_cons in Hafter as [Htask Hafter].
      apply Forall_cons in Htask as [Ha Hrest].
      split; [apply Ha, Hy|]. apply Forall_app_2; [exact Hbefore | now constructor].
    + rewrite E in Hpending. apply Forall_app in Hpending as [Hbefore Hafter].
      apply Forall_cons in Hafter as [_ Hafter].
      split; [exact Hy | now apply Forall_app_2].
Qed.

Lemma wellLinked_frame f :
  (forall s, courses (f s) = courses s) ->
  (forall s, activeCourseId (f s) = activeCourseId s) ->
  (forall s, currentView (f s) = currentView s) ->
  preserves wellLinked (SetState f).
Proof.
  intros Hcs Hid Hview w [Hres Hhas].
  unfold wellLinked, courseResolves, courseViewHasId, activeCourse in *.
  simpl. rewrite Hcs, Hid, Hview. now split.
Qed.

Lemma find_app_some {A} (p : A -> bool) (l : list A) (x : A) :
  p x = true -> exists y, List.find p (l ++ [x]) = Some y /\ p y = true.
Proof.
  intros Hx. induction l as [|z l IH]; simpl.
  - rewrite Hx. eauto.
  - destruct (p z) eqn:Hz; eauto.
Qed.

Lemma wellLinked_openCourse course : preserves wellLinked (SetState (openCourse course)).
Proof.
  intros w _. split.
  - unfold courseResolves, activeCourse. simpl.
    destruct (find_app_some
                (fun c => bool_decide (Some (Course.id c) = Some (Course.id course)))
                (courses (state w)) course) as (c & Hc & Hid).
    + now apply bool_decide_eq_true_2.
    + exists c. split; [exact Hc|].
      apply bool_decide_eq_true_1 in Hid. congruence.
  - intros _. discriminate.
Qed.

Lemma wellLinked_home :
  preserves wellLinked (SetState (set_currentView ViewState.landing)).
Proof.
  intros w [Hres _]. split; [exact Hres|]. intros H. discriminate.
Qed.

Lemma handler_keeps_links r e : Forall (preserves wellLinked) (handler r e).
Proof.
  destruct e; simpl;
    unfold handleGenerateCurriculum, handleSelectLesson, handleSendMessage,
      handleTakeQuiz, curriculumCatch, quizCatch, onHomeClick, onClose, onChange;
    split_handler;
    repeat apply Forall_app_2;
    try (apply onChunks_preserves; intros c; apply wellLinked_frame; reflexivity);
    repeat first [ apply List.Forall_nil | apply List.Forall_cons ];
    first [ apply wellLinked_openCourse
          | apply wellLinked_home
          | apply wellLinked_frame; reflexivity
          | intros w Hw; exact Hw ].
Qed.

Lemma overlapping_wellLinked c :
  rtc step initialConfig c -> wellLinked (component c).
Proof.
  apply overlapping_invariant.
  - split; [exact I | discriminate].
  - apply handler_keeps_links.
Qed.

(** X13: in every state the handlers reach, overlapping or not, an active
    course id names a course of the list: [activeCourse] is defined and has
    that id.  Courses are never removed and the id is only ever set to the
    id of the course just appended. *)
Theorem active_id_resolves c id :
  rtc step initialConfig c ->
  activeCourseId (state (component c)) = Some id ->
  exists course,
    activeCourse (component c) = Some course /\ Course.id course = id.
Proof.
  intros Hreach Hid. destruct (overlapping_wellLinked c Hreach) as [Hres _].
  unfold courseResolves in Hres. now rewrite Hid in Hres.
Qed.

Lemma active_id_resolves_witness :
  exists course,
    activeCourse demoWorld = Some course /\ Course.id course = Js.lit "c-1".
Proof.
  apply (active_id_resolves (mkConfig demoWorld []) (Js.lit "c-1")).
  - apply reachable_overlapping, demoWorld_reachable.
  - reflexivity.
Defined.

(** X14: whenever the course page is shown, the sidebar is rendered: the
    view is never ['course'] without an active course. *)
Theorem course_page_has_sidebar c :
  rtc step initialConfig c ->
  currentView (state (component c)) = ViewState.course ->
  exists course,
    sidebar (render (component c)) = Some course
    /\ activeCourse (component c) = Some course.
Proof.
  intros Hreach Hview. destruct (overlapping_wellLinked c Hreach) as [Hres Hhas].
  specialize (Hhas Hview). unfold courseResolves in Hres.
  destruct (activeCourseId (state (component c))) as [id|]; [|congruence].
  destruct Hres as (course & Hc & _). exists course.
  unfold render. rewrite Hview. simpl. now split.
Qed.

Lemma course_page_has_sidebar_witness :
  exists course,
    sidebar (render demoWorld) = Some course /\ activeCourse demoWorld = Some course.
Proof.
  apply (course_page_has_sidebar (mkConfig demoWorld [])).
  - apply reachable_overlapping, demoWorld_reachable.
  - reflexivity.
Defined.

(** ** What one handler run to its end changes *)

Lemma sameButChat_send r w0 text userId modelMsgId chunks ok :
  Forall (preserves (sameButChat w0))
    (handleSendMessage r text userId modelMsgId chunks ok).
Proof.
  unfold handleSendMessage. split_handler;
    repeat apply Forall_app_2;
    try (apply onChunks_preserves; intros c w Hw; exact Hw);
    each_action; assumption.
Qed.

Lemma send_frame r text userId modelMsgId chunks ok :
  sameButChat r (run (handleSendMessage r text userId modelMsgId chunks ok) r).
Proof.
  apply run_preserves; [apply sameButChat_send | now split].
Qed.

Lemma sameButChat_fields w0 w :
  sameButChat w0 w ->
  currentView (state w) = currentView (state w0)
  /\ courses (state w) = courses (state w0)
  /\ activeCourseId (state w) = activeCourseId (state w0)
  /\ activeModuleIndex (state w) = activeModuleIndex (state w0)
  /\ activeLessonIndex (state w) = activeLessonIndex (state w0)
  /\ activeQuiz (state w) = activeQuiz (state w0)
  /\ isLoading (state w) = isLoading (state w0).
Proof.
  intros [H _]. unfold set_chatHistory in H. injection H as -> -> -> -> -> -> ->.
  repeat split.
Qed.

(** X15: once a handler has run to its end, [isLoading] is false again:
    every path that sets it, through either [catch] block included, clears
    it.  So between handlers the spinner is never left on. *)
Theorem reachable_not_loading w : reachable w -> isLoading (state w) = false.
Proof.
  induction 1 as [|w e _ IH]; [reflexivity|].
  destruct e as [uuid outcome | m l uuid | text userId modelMsgId chunks ok
                | m outcome | | | value];
    unfold dispatch; simpl handler.
  3: { destruct (sameButChat_fields _ _
                   (send_frame w text userId modelMsgId chunks ok))
         as (_ & _ & _ & _ & _ & _ & Hloading).
       now rewrite Hloading. }
  all: unfold handleGenerateCurriculum, handleSelectLesson, handleTakeQuiz,
         curriculumCatch, quizCatch, onHomeClick, onClose, onChange;
       split_handler; simpl; trivial.
Qed.

Lemma reachable_not_loading_witness : isLoading (state demoWorld) = false.
Proof. apply (reachable_not_loading demoWorld). exact demoWorld_reachable. Defined.

Lemma dispatch_positionCoherent w e :
  positionCoherent (state w) -> positionCoherent (state (dispatch w e)).
Proof.
  intros Hw.
  destruct e as [uuid outcome | m l uuid | text userId modelMsgId chunks ok
                | m outcome | | | value];
    unfold dispatch; simpl handler.
  3: { destruct (sameButChat_fields _ _
                   (send_frame w text userId modelMsgId chunks ok))
         as (_ & _ & Hid & Hmi & Hli & _ & _).
       unfold positionCoherent. now rewrite Hid, Hmi, Hli. }
  2: { unfold handleSelectLesson.
       destruct (activeCourse w) as [course|] eqn:Hc; [|exact Hw].
       apply activeCourse_id in Hc.
       split_handler; simpl; try exact Hw;
         right; simpl; rewrite ?Hc; repeat split; discriminate. }
  all: unfold handleGenerateCurriculum, handleTakeQuiz,
         curriculumCatch, quizCatch, onHomeClick, onClose, onChange;
       split_handler; simpl; try exact Hw;
       right; simpl; repeat split; discriminate.
Qed.

(** X16: between handlers the position is all or nothing: the active
    course id, the module index and the lesson index are either all three
    [null] or all three set. *)
Theorem reachable_position_coherent w :
  reachable w -> positionCoherent (state w).
Proof.
  induction 1 as [|w e _ IH]; [left; repeat split | now apply dispatch_positionCoherent].
Qed.

Lemma reachable_position_coherent_witness : positionCoherent (state demoWorld).
Proof. apply (reachable_position_coherent demoWorld). exact demoWorld_reachable. Defined.

(** X17: no handler removes, replaces or reorders a course: after any
    event the list of courses is the earlier one with at most one course
    appended. *)
Theorem courses_only_grow w e :
  exists added,
    courses (state (dispatch w e)) = courses (state w) ++ added
    /\ (length added <= 1)%nat.
Proof.
  destruct e as [uuid outcome | m l uuid | text userId modelMsgId chunks ok
                | m outcome | | | value];
    unfold dispatch; simpl handler.
  3: { destruct (sameButChat_fields _ _
                   (send_frame w text userId modelMsgId chunks ok))
         as (_ & Hcourses & _).
       exists []. rewrite Hcourses, app_nil_r. split; [reflexivity | simpl; lia]. }
  all: unfold handleGenerateCurriculum, handleSelectLesson, handleTakeQuiz,
         curriculumCatch, quizCatch, onHomeClick, onClose, onChange;
       split_handler; simpl;
       first [ exists []; rewrite app_nil_r; split; [reflexivity | simpl; lia]
             | eexists [_]; split; [reflexivity | simpl; lia] ].
Qed.

(** X18: the page changes in two ways only.  From the landing page, the
    course page is reached by nothing but a curriculum generation that
    passed its guard and got a course from the service; from the course
    page, the landing page is reached by nothing but the home click. *)
Theorem page_changes w e :
  (currentView (state w) = ViewState.landing ->
   currentView (state (dispatch w e)) = ViewState.course ->
   exists uuid course,
     e = Submit uuid (Some course) /\ Js.trim (topicInput w) <> [])
  /\ (currentView (state w) = ViewState.course ->
      currentView (state (dispatch w e)) = ViewState.landing ->
      e = HomeClick).
Proof.
  destruct e as [uuid outcome | m l uuid | text userId modelMsgId chunks ok
                | m outcome | | | value];
    unfold dispatch; simpl handler.
  3: { destruct (sameButChat_fields _ _
                   (send_frame w text userId modelMsgId chunks ok))
         as (Hview & _).
       rewrite Hview. split; congruence. }
  1: { destruct (decide (Js.trim (topicInput w) = [])) as [E|E].
       - rewrite generate_guard_closed by exact E. simpl. split; congruence.
       - rewrite generate_guard_open by exact E.
         destruct outcome as [course|]; [|simpl; split; congruence].
         split; [intros _ _; now exists uuid, course|].
         destruct (greeting uuid course); simpl; congruence. }
  all: unfold handleSelectLesson, handleTakeQuiz, quizCatch, onHomeClick, onClose,
         onChange;
       split_handler; simpl; split; congruence.
Qed.

Lemma page_changes_witness :
  exists uuid course,
    Submit (Js.lit "u-0") (Some demoCourse) = Submit uuid (Some course)
    /\ Js.trim (topicInput typed) <> [].
Proof.
  apply (proj1 (page_changes typed (Submit (Js.lit "u-0") (Some demoCourse))));
    reflexivity.
Defined.

(** ** handleTakeQuiz beyond the bounds *)

Lemma index_outside {A} (arr : list A) (i : Z) :
  i < 0 \/ Z.of_nat (length arr) <= i -> Js.index arr i = None.
Proof.
  intros H. unfold Js.index. destruct (decide (0 <= i)) as [Hpos|]; [|reflexivity].
  apply lookup_ge_None. lia.
Qed.

(** X19: for a module index outside the active course (negative
    included), [handleTakeQuiz] never reaches the service, whatever it
    would have answered: the error is caught, the quiz alert is raised, and
    the open quiz, if any, stays. *)
Theorem take_quiz_missing_module r m course outcome :
  activeCourse r = Some course ->
  m < 0 \/ Z.of_nat (length (Course.modules course)) <= m ->
  existsb is_api_call (handleTakeQuiz r m outcome) = false
  /\ alerts (handleTakeQuiz r m outcome)
     = [ Js.lit "Could not generate quiz. Try again." ]
  /\ activeQuiz (state (run (handleTakeQuiz r m outcome) r)) = activeQuiz (state r).
Proof.
  intros Hc Hm. apply index_outside in Hm.
  unfold handleTakeQuiz. rewrite Hc, Hm. repeat split.
Qed.

Lemma take_quiz_missing_module_witness :
  existsb is_api_call (handleTakeQuiz demoWorld (-1) (Some demoQuiz)) = false
  /\ alerts (handleTakeQuiz demoWorld (-1) (Some demoQuiz))
     = [ Js.lit "Could not generate quiz. Try again." ]
  /\ activeQuiz (state (run (handleTakeQuiz demoWorld (-1) (Some demoQuiz)) demoWorld))
     = activeQuiz (state demoWorld).
Proof.
  apply (take_quiz_missing_module demoWorld (-1) demoCourse (Some demoQuiz)).
  - reflexivity.
  - left. lia.
Defined.
